(** * BilibiliAutoCC: the auto-reply engine

    A shallow embedding of
    - [src/bilibili_gui/utils/database.py]  (class [AutoReplyDatabase]) and
    - [src/bilibili_gui/core/message_manager.py] (class [MessageManager]):
      [load_account_config], [_update_today_count], [match_auto_reply],
      [_generate_message_id] and the polling loop [_auto_reply_worker].

    Conventions of the embedding.
    - A Python [str] is a [string]; a character is a code point below 256.
    - A JSON value read from the remote service is a [pyval]; a message is
      the Python [dict] the service returned, a [gmap string pyval].
    - The two guard sets are [gset string]; the order in which Python
      enumerates a set is a component of the runtime ([set_iter]).
    - Library calls whose result the program cannot compute by itself
      ([re], [difflib], [hashlib], [json]) are fields of [PyRuntime].
    - The worker runs in a monad with state (the [MessageManager] object),
      an output trace of [event]s and Python exceptions.
    - Console and GUI logging ([_log_with_management]) is left out: it only
      touches [log_count] and [last_log_clear], which nothing else reads.
      Where building a log line can raise (a timestamp that is no number
      or that [time.localtime] refuses, a content that cannot be sliced)
      the exception is kept.
    - A Python [int] is unbounded, a [Z].  Where the outside refuses the
      large ones the refusal is part of the model: SQLite's 64-bit
      INTEGER ([in_int64]), [time.localtime] and [time.sleep] (fields of
      [PyRuntime]), the conversion to a float
      ([float_of_int_overflows]).
    - A Python [float] (a time in seconds) is a rational number, a [Q]:
      the rounding of the floating-point operations is not modelled. *)

From Stdlib Require Import ZArith QArith String Ascii Sorting.Sorted Permutation Lia.
From stdpp Require Import gmap strings list sets pretty sorting.

Close Scope Q_scope.
Open Scope string_scope.
Open Scope list_scope.

(* ================================================================== *)
(** * Part I: definitions *)
(* ================================================================== *)

(** ** Python values and exceptions *)

Inductive pyval : Type :=
| PInt (n : Z)
| PStr (s : string)
| PNone.

Inductive exn : Type :=
| AttributeError (name : string)
| TypeError
| ValueError
| OverflowError
| OSError
| ReError.

#[global] Instance pyval_eq_dec : EqDecision pyval.
Proof. solve_decision. Defined.

#[global] Instance exn_eq_dec : EqDecision exn.
Proof. solve_decision. Defined.

(** [str(v)], as used by f-strings. *)
Definition py_str (v : pyval) : string :=
  match v with
  | PInt n => pretty n
  | PStr s => s
  | PNone => "None"
  end.

(** Truthiness: [not v] is [negb (py_truthy v)]. *)
Definition py_truthy (v : pyval) : bool :=
  match v with
  | PInt n => negb (n =? 0)%Z
  | PStr s => negb (s =? "")
  | PNone => false
  end.

(** [d.get(k, default)] *)
Definition dict_get (d : gmap string pyval) (k : string) (dflt : pyval) : pyval :=
  default dflt (d !! k).

(** ** Python string methods *)

Definition is_space (c : ascii) : bool :=
  let n := N_of_ascii c in
  ((9 <=? n) && (n <=? 13) || (28 <=? n) && (n <=? 32) || (n =? 133) || (n =? 160))%N.

Definition lower_char (c : ascii) : ascii :=
  let n := N_of_ascii c in
  if ((65 <=? n) && (n <=? 90) || (192 <=? n) && (n <=? 222) && negb (n =? 215))%N
  then ascii_of_N (n + 32) else c.

Fixpoint py_lower (s : string) : string :=
  match s with
  | EmptyString => EmptyString
  | String c s' => String (lower_char c) (py_lower s')
  end.

Fixpoint py_lstrip (s : string) : string :=
  match s with
  | EmptyString => EmptyString
  | String c s' => if is_space c then py_lstrip s' else s
  end.

Fixpoint string_rev_onto (s acc : string) : string :=
  match s with
  | EmptyString => acc
  | String c s' => string_rev_onto s' (String c acc)
  end.

Definition string_rev (s : string) : string := string_rev_onto s EmptyString.

Definition py_rstrip (s : string) : string := string_rev (py_lstrip (string_rev s)).

Definition py_strip (s : string) : string := py_rstrip (py_lstrip s).

Fixpoint py_startswith (text kw : string) : bool :=
  match kw, text with
  | EmptyString, _ => true
  | String _ _, EmptyString => false
  | String a kw', String b text' => Ascii.eqb a b && py_startswith text' kw'
  end.

Definition py_endswith (text kw : string) : bool :=
  py_startswith (string_rev text) (string_rev kw).

(** [kw in text] *)
Fixpoint py_in (kw text : string) : bool :=
  py_startswith text kw ||
  match text with
  | EmptyString => false
  | String _ text' => py_in kw text'
  end.

(** [s.split()]: the maximal runs of non-blank characters. *)
Fixpoint py_split_go (s : string) (cur : string) : list string :=
  match s with
  | EmptyString => if cur =? "" then [] else [string_rev cur]
  | String c s' =>
      if is_space c
      then (if cur =? "" then py_split_go s' "" else string_rev cur :: py_split_go s' "")
      else py_split_go s' (String c cur)
  end.

Definition py_split (s : string) : list string := py_split_go s "".

(** ** A stable sort

    [list.sort] is stable; the same insertion sort stands for the
    [ORDER BY] of SQLite, whose order among full ties is then the order of
    the rows in the table. *)

Section StableSort.
Context {A : Type} (leb : A → A → bool).

Fixpoint insert_sorted (x : A) (l : list A) : list A :=
  match l with
  | [] => [x]
  | y :: l' => if leb x y then x :: l else y :: insert_sorted x l'
  end.

Definition stable_sort (l : list A) : list A := foldr insert_sorted [] l.
End StableSort.

(** ** The persistence layer: [AutoReplyDatabase] (database.py) *)

(** A row of [auto_reply_rules]. *)
Record rule := {
  r_account_uid : string;
  r_id : Z;
  r_keyword : string;
  r_reply_content : string;
  r_match_type : string;
  r_case_sensitive : bool;
  r_enabled : bool;
  r_priority : Z;
  r_description : string;
  r_created_time : Q;
  r_updated_time : Q
}.

(** A row of [auto_reply_stats] ([UNIQUE(account_uid)]). *)
Record stats_row := {
  total_replies : Z;
  today_replies : Z;
  last_reply_time : Q;
  last_update_date : string
}.

(** A row of [account_configs] ([UNIQUE(account_uid)]). *)
Record config_row := {
  c_auto_reply_enabled : bool;
  c_reply_delay_min : Z;
  c_reply_delay_max : Z;
  c_daily_limit : Z;
  c_scan_interval : option Z;      (* the column added later may be NULL *)
  c_updated_time : Q
}.

(** A row of [auto_reply_logs]. *)
Record log_row := {
  l_account_uid : string;
  l_sender_uid : string;
  l_received_message : string;
  l_reply_message : string;
  l_keyword_matched : string;
  l_match_type : string;
  l_created_time : Q;
  l_session_type : Z
}.

(** The database file.  [db_ok = false] stands for any [sqlite3] failure:
    every method then takes its [except] branch. *)
Record AutoReplyDatabase := {
  db_ok : bool;
  rules_table : list rule;
  stats_table : gmap string stats_row;
  configs_table : gmap string config_row;
  logs_table : list log_row
}.

(** A Python [int] bound to a statement parameter must fit SQLite's
    64-bit INTEGER: otherwise [sqlite3] raises [OverflowError], before the
    statement runs, and the method takes its [except] branch. *)
Definition in_int64 (n : Z) : bool :=
  (-9223372036854775808 <=? n)%Z && (n <=? 9223372036854775807)%Z.

(** [float - int] converts the [int] to a double, rounding to nearest
    even, and raises [OverflowError] when the result would be 2^1024 or
    more in absolute value. *)
Definition float_of_int_overflows (n : Z) : bool :=
  (2 ^ 1024 - 2 ^ 970 <=? Z.abs n)%Z.

(** The methods the class defines (its [def]s, in order). *)
Definition AutoReplyDatabase_methods : list string :=
  [ "__init__"; "init_database"; "log_auto_reply"; "_update_stats";
    "save_auto_reply_rule"; "get_auto_reply_rules"; "delete_auto_reply_rule";
    "toggle_rule_status"; "save_account_config"; "get_account_config";
    "get_reply_logs"; "get_reply_stats"; "delete_old_logs"; "get_daily_stats";
    "get_keyword_stats" ].

(** [ORDER BY priority DESC, created_time ASC] *)
Definition sql_rule_order (r1 r2 : rule) : bool :=
  (r_priority r2 <? r_priority r1)%Z
  || ((r_priority r1 =? r_priority r2)%Z
      && Qle_bool (r_created_time r1) (r_created_time r2)).

Definition rule_selected (account_uid : string) (enabled_only : bool) (r : rule) : bool :=
  (r_account_uid r =? account_uid) && (negb enabled_only || r_enabled r).

Definition get_auto_reply_rules (db : AutoReplyDatabase) (account_uid : string)
    (enabled_only : bool) : list rule :=
  if db_ok db
  then stable_sort sql_rule_order
         (List.filter (rule_selected account_uid enabled_only) (rules_table db))
  else [].

Definition get_account_config (db : AutoReplyDatabase) (account_uid : string)
    : option config_row :=
  if db_ok db then configs_table db !! account_uid else None.

Definition get_reply_stats (db : AutoReplyDatabase) (account_uid : string)
    : option stats_row :=
  if db_ok db then stats_table db !! account_uid else None.

(** [_update_stats]; [today] is [date.today().isoformat()].  The two new
    counters are computed in Python and bound to the [UPDATE]: [None]
    stands for the [OverflowError] of a counter that no longer fits. *)
Definition _update_stats (stats : gmap string stats_row) (account_uid : string)
    (current_time : Q) (today : string) : option (gmap string stats_row) :=
  match stats !! account_uid with
  | Some row =>
      let today_replies0 :=
        if last_update_date row =? today then today_replies row else 0%Z in
      if in_int64 (total_replies row + 1) && in_int64 (today_replies0 + 1)
      then Some (<[account_uid := {| total_replies := total_replies row + 1;
                                     today_replies := today_replies0 + 1;
                                     last_reply_time := current_time;
                                     last_update_date := today |}]> stats)
      else None
  | None =>
      Some (<[account_uid := {| total_replies := 1;
                                today_replies := 1;
                                last_reply_time := current_time;
                                last_update_date := today |}]> stats)
  end.

(** [log_auto_reply]: insert the log row and update the counters, in one
    transaction: when a parameter is refused nothing is written. *)
Definition log_auto_reply (db : AutoReplyDatabase) (account_uid sender_uid : string)
    (received_message reply_message keyword_matched match_type : string)
    (session_type : Z) (current_time : Q) (today : string)
    : AutoReplyDatabase * bool :=
  if db_ok db && in_int64 session_type
  then match _update_stats (stats_table db) account_uid current_time today with
       | Some stats =>
           ({| db_ok := true;
               rules_table := rules_table db;
               stats_table := stats;
               configs_table := configs_table db;
               logs_table := logs_table db ++
                 [{| l_account_uid := account_uid; l_sender_uid := sender_uid;
                     l_received_message := received_message;
                     l_reply_message := reply_message;
                     l_keyword_matched := keyword_matched;
                     l_match_type := match_type;
                     l_created_time := current_time;
                     l_session_type := session_type |}] |}, true)
       | None => (db, false)
       end
  else (db, false).

(** ** The runtime the engine calls into *)

Record PyRuntime := {
  (** [bool(re.search(pattern, text, flags))]; [None] when the pattern does
      not compile ([re.error]).  The flag is [re.IGNORECASE]. *)
  re_search : string → string → bool → option bool;
  re_escape : string → string;
  (** [difflib.SequenceMatcher(None, a, b).ratio()] *)
  SequenceMatcher_ratio : string → string → Q;
  (** [hashlib.md5(s.encode()).hexdigest()] *)
  md5_hexdigest : string → string;
  (** [json.loads(raw).get('content', '')]; [None] when either step raises. *)
  json_content : string → option pyval;
  (** [list(s)] for a set [s]: an enumeration of its members, each once, in
      an order that is the runtime's business (taken here to depend on the
      members only). *)
  set_iter : gset string → list string;
  set_iter_perm : ∀ s, set_iter s ≡ₚ elements s;
  (** [time.localtime(ts)] for an integer: [None] when the platform can
      break the timestamp down, else the exception it raises
      ([OverflowError] outside [time_t], [OSError] or [OverflowError] for a
      year it cannot represent).  No [time_t] is wider than 64 bits. *)
  localtime_error : Z → option exn;
  localtime_range : ∀ ts, localtime_error ts = None →
    (-9223372036854775808 ≤ ts ≤ 9223372036854775807)%Z;
  (** The longest [time.sleep] the platform accepts, in seconds; a longer
      one raises [OverflowError]. *)
  sleep_max : Z;
  sleep_max_ten : (10 ≤ sleep_max)%Z
}.

(** ** The [MessageManager] object (message_manager.py) *)

(** The instance attributes.  The integer-valued ones live in [attrs], the
    instance's [__dict__] restricted to integers: reading an attribute
    nobody assigned raises [AttributeError]. *)
Record MessageManager := {
  account_uid : string;
  attrs : gmap string Z;
  auto_reply_enabled : bool;
  stop_listening : bool;
  processed_messages : gset string;
  replied_messages : gset string;
  db : AutoReplyDatabase
}.

Definition set_attr (name : string) (v : Z) (self : MessageManager) : MessageManager :=
  {| account_uid := account_uid self;
     attrs := <[name := v]> (attrs self);
     auto_reply_enabled := auto_reply_enabled self;
     stop_listening := stop_listening self;
     processed_messages := processed_messages self;
     replied_messages := replied_messages self;
     db := db self |}.

Definition set_processed (p : gset string) (self : MessageManager) : MessageManager :=
  {| account_uid := account_uid self;
     attrs := attrs self;
     auto_reply_enabled := auto_reply_enabled self;
     stop_listening := stop_listening self;
     processed_messages := p;
     replied_messages := replied_messages self;
     db := db self |}.

Definition set_replied (p : gset string) (self : MessageManager) : MessageManager :=
  {| account_uid := account_uid self;
     attrs := attrs self;
     auto_reply_enabled := auto_reply_enabled self;
     stop_listening := stop_listening self;
     processed_messages := processed_messages self;
     replied_messages := p;
     db := db self |}.

(** [load_account_config] *)
Definition load_account_config (self : MessageManager) : MessageManager :=
  match get_account_config (db self) (account_uid self) with
  | Some config =>
      set_attr "scan_interval" (default 8%Z (c_scan_interval config))
        (set_attr "daily_limit" (c_daily_limit config)
           (set_attr "reply_delay_max" (c_reply_delay_max config)
              (set_attr "reply_delay_min" (c_reply_delay_min config) self)))
  | None =>
      set_attr "scan_interval" 8%Z
        (set_attr "daily_limit" 100%Z
           (set_attr "reply_delay_max" 8%Z
              (set_attr "reply_delay_min" 2%Z self)))
  end.

(** [_update_today_count]; [today] is [datetime.now().date().isoformat()]. *)
Definition _update_today_count (today : string) (self : MessageManager) : MessageManager :=
  match get_reply_stats (db self) (account_uid self) with
  | Some stats =>
      if last_update_date stats =? today
      then set_attr "today_reply_count" (today_replies stats) self
      else set_attr "today_reply_count" 0%Z self
  | None => set_attr "today_reply_count" 0%Z self
  end.

(** [__init__], with the database file it opens. *)
Definition MessageManager_init (database : AutoReplyDatabase) (uid : string)
    (today : string) : MessageManager :=
  let self := {| account_uid := uid;
                 attrs := ∅;
                 auto_reply_enabled := false;
                 stop_listening := false;
                 processed_messages := ∅;
                 replied_messages := ∅;
                 db := database |} in
  let self := load_account_config self in
  let self := set_attr "today_reply_count" 0%Z self in
  let self := _update_today_count today self in
  (* _cleanup_old_records *)
  set_replied ∅ (set_processed ∅ self).

(** The attribute writes of [MessageWindow.save_config] (message_window.py). *)
Definition gui_save_config (delay_min delay_max daily_limit scan_interval : Z)
    (self : MessageManager) : MessageManager :=
  set_attr "scan_interval" scan_interval
    (set_attr "daily_limit" daily_limit
       (set_attr "reply_delay_max" delay_max
          (set_attr "reply_delay_min" delay_min self))).

(** ** [match_auto_reply] *)

Record match_result := {
  m_keyword : string;
  m_keyword_matched : string;
  m_reply_content : string;
  m_match_type : string;
  m_rule_id : Z;
  m_priority : Z
}.

Definition result_of_rule (r : rule) : match_result :=
  let keyword := py_strip (r_keyword r) in
  {| m_keyword := keyword;
     m_keyword_matched := keyword;
     m_reply_content := r_reply_content r;
     m_match_type := r_match_type r;
     m_rule_id := r_id r;
     m_priority := r_priority r |}.

Section Matcher.
Context (rt : PyRuntime).

(** The inner [try] block: the test of one rule.  [keyword] is the rule's
    stripped keyword. *)
Definition eval_rule (keyword : string) (r : rule) (message_text : string)
    : exn + bool :=
  let case_sensitive := r_case_sensitive r in
  let text_to_match := if case_sensitive then message_text else py_lower message_text in
  let keyword_to_match := if case_sensitive then keyword else py_lower keyword in
  let match_type := r_match_type r in
  if match_type =? "exact" then
    inr (py_strip text_to_match =? py_strip keyword_to_match)
  else if match_type =? "contains" then
    inr (py_in keyword_to_match text_to_match)
  else if match_type =? "startswith" then
    inr (py_startswith text_to_match keyword_to_match)
  else if match_type =? "endswith" then
    inr (py_endswith text_to_match keyword_to_match)
  else if match_type =? "regex" then
    match re_search rt keyword message_text (negb case_sensitive) with
    | Some b => inr b
    | None => inl ReError
    end
  else if match_type =? "word_boundary" then
    let pattern := "\b" +:+ re_escape rt keyword_to_match +:+ "\b" in
    match re_search rt pattern text_to_match (negb case_sensitive) with
    | Some b => inr b
    | None => inl ReError
    end
  else if match_type =? "fuzzy" then
    inr (Qle_bool (8 # 10) (SequenceMatcher_ratio rt text_to_match keyword_to_match))
  else if match_type =? "fuzzy_contains" then
    if (String.length keyword_to_match <=? 3)%nat then
      inr (py_in keyword_to_match text_to_match)
    else
      inr (existsb (λ word, py_in word text_to_match)
             (List.filter (λ word, (1 <? String.length word)%nat)
                (py_split keyword_to_match)))
  else inr false.

(** Whether the loop returns at rule [r]: its keyword is not blank and
    its test comes out true without raising. *)
Definition rule_matches (message_text : string) (r : rule) : bool :=
  let keyword := py_strip (r_keyword r) in
  if keyword =? "" then false
  else match eval_rule keyword r message_text with
       | inr b => b
       | inl _ => false
       end.

(** The [for] loop over the sorted rules. *)
Fixpoint match_rules (rules : list rule) (message_text : string)
    : option match_result :=
  match rules with
  | [] => None
  | r :: rest =>
      let keyword := py_strip (r_keyword r) in
      if keyword =? "" then match_rules rest message_text
      else
        match eval_rule keyword r message_text with
        | inr true => Some (result_of_rule r)
        | inr false => match_rules rest message_text
        | inl _ => match_rules rest message_text   (* except Exception: continue *)
        end
  end.

(** [rules.sort(key=lambda x: x.get('priority', 0), reverse=True)] *)
Definition sort_by_priority (rules : list rule) : list rule :=
  stable_sort (λ r1 r2, (r_priority r2 <=? r_priority r1)%Z) rules.

(** The body of the outer [try]. *)
Definition match_auto_reply_body (self : MessageManager) (message_text : pyval)
    : exn + option match_result :=
  match message_text with
  | PNone => inr None
  | PInt n => if (n =? 0)%Z then inr None else inl (AttributeError "strip")
  | PStr text =>
      if (text =? "") || (py_strip text =? "") then inr None
      else
        match get_auto_reply_rules (db self) (account_uid self) true with
        | [] => inr None
        | rules => inr (match_rules (sort_by_priority rules) text)
        end
  end.

(** [match_auto_reply]: the body under [except Exception: return None]. *)
Definition match_auto_reply (self : MessageManager) (message_text : pyval)
    : exn + option match_result :=
  match match_auto_reply_body self message_text with
  | inr res => inr res
  | inl _ => inr None
  end.

(** [_generate_message_id] *)
Definition _generate_message_id (talker_id : Z) (msg : gmap string pyval) : string :=
  let sender_uid := dict_get msg "sender_uid" (PStr "") in
  let timestamp := dict_get msg "timestamp" (PInt 0) in
  let msg_key := dict_get msg "msg_key" (PStr "") in
  let msg_seqno := dict_get msg "msg_seqno" (PStr "") in
  let content := dict_get msg "content" (PStr "") in
  let content_hash := substring 0 8 (md5_hexdigest rt (py_str content)) in
  pretty talker_id +:+ "_" +:+ py_str sender_uid +:+ "_" +:+ py_str timestamp +:+ "_"
    +:+ py_str msg_key +:+ "_" +:+ py_str msg_seqno +:+ "_" +:+ content_hash.
End Matcher.

(** ** The worker monad *)

(** What the worker does to the outside, in order: the sleeps, the calls
    of [send_message] (tagged with the identity of the message being
    answered), the members dropped from the dedup set, and the exceptions
    its handlers swallow. *)
Inductive event : Type :=
| EvSleep (secs : Z)
| EvSend (msg_id : string) (receiver_id : Z) (content : string) (receiver_type : Z)
| EvDiscard (msg_id : string)
| EvCaught (e : exn).

#[global] Instance event_eq_dec : EqDecision event.
Proof. solve_decision. Defined.

Definition M (A : Type) : Type :=
  MessageManager → MessageManager * list event * (exn + A).

#[global] Instance M_ret : MRet M := λ A x self, (self, [], inr x).

#[global] Instance M_bind : MBind M := λ A B f m self,
  match m self with
  | (self', tr, inl e) => (self', tr, inl e)
  | (self', tr, inr x) =>
      match f x self' with
      | (self'', tr', res) => (self'', tr ++ tr', res)
      end
  end.

Definition raise {A : Type} (e : exn) : M A := λ self, (self, [], inl e).
Definition emit (ev : event) : M unit := λ self, (self, [ev], inr tt).
Definition get_self : M MessageManager := λ self, (self, [], inr self).
Definition modify_self (f : MessageManager → MessageManager) : M unit :=
  λ self, (f self, [], inr tt).
Definition lift_result {A : Type} (r : exn + A) : M A :=
  match r with
  | inl e => raise e
  | inr x => mret x
  end.

(** [try: body except Exception as e: handler e] *)
Definition try_except {A : Type} (body : M A) (handler : exn → M A) : M A :=
  λ self,
    match body self with
    | (self', tr, inl e) =>
        match handler e self' with
        | (self'', tr', res) => (self'', tr ++ tr', res)
        end
    | finished => finished
    end.

(** [self.<name>] for an integer attribute *)
Definition getattr (name : string) : M Z :=
  λ self,
    match attrs self !! name with
    | Some v => (self, [], inr v)
    | None => (self, [], inl (AttributeError name))
    end.

(** [self.db.<name>]: the lookup of a method of [AutoReplyDatabase]. *)
Definition db_getattr (name : string) : M unit :=
  if bool_decide (name ∈ AutoReplyDatabase_methods) then mret tt
  else raise (AttributeError name).

(** [time.sleep(secs)] *)
Definition py_sleep (rt : PyRuntime) (secs : Z) : M unit :=
  if (secs <? 0)%Z then raise ValueError
  else if (sleep_max rt <? secs)%Z then raise OverflowError
  else emit (EvSleep secs).

(** What [time.localtime(v)] raises, if anything: a string is no number,
    [None] stands for the current time. *)
Definition localtime_exn (rt : PyRuntime) (v : pyval) : option exn :=
  match v with
  | PInt ts => localtime_error rt ts
  | PStr _ => Some TypeError
  | PNone => None
  end.

(** [time.strftime('%H:%M:%S', time.localtime(v))], for its exceptions. *)
Definition py_localtime (rt : PyRuntime) (v : pyval) : M unit :=
  match localtime_exn rt v with
  | Some e => raise e
  | None => mret tt
  end.

(** [random.randint(a, b)]; [raw] is the entropy the generator consumes. *)
Definition randint (raw a b : Z) : M Z :=
  if (b <? a)%Z then raise ValueError else mret (a + raw `mod` (b - a + 1))%Z.

(** ** The environment of the worker *)

(** A session of the list [get_sessions] returns. *)
Record session := {
  talker_id : Z;
  session_type : Z;
  session_name : string;        (* [format_session_name(session)] *)
  (** [session.get('last_msg', {})]: a dict ([Some ∅] when the key is
      absent), or [None] for a JSON [null]. *)
  last_msg : option (gmap string pyval)
}.

(** What the outside answers while one message is processed. *)
Record msg_env := {
  rand_raw : Z;                 (* entropy for [random.randint] *)
  send_result : bool * string;  (* what [send_message] returns *)
  today : string                (* the local date, ISO format *)
}.

(** What the outside answers during one iteration of the loop. *)
Record scan_input := {
  in_sessions : option (list session);   (* [get_sessions()]; [None]: failure *)
  in_current_time : Q;                   (* [time.time()] at line 619 *)
  (** [get_session_messages] for the i-th scanned session: [None] on
      failure, else the ['messages'] list, each message with its [msg_env]. *)
  in_fetch : nat → option (list (gmap string pyval * msg_env))
}.

Definition is_send (ev : event) : bool :=
  match ev with EvSend _ _ _ _ => true | _ => false end.
Definition is_sleep (ev : event) : bool :=
  match ev with EvSleep _ => true | _ => false end.
Definition is_send_for (i : string) (ev : event) : bool :=
  match ev with EvSend j _ _ _ => bool_decide (i = j) | _ => false end.
Definition is_discard_of (i : string) (ev : event) : bool :=
  match ev with EvDiscard j => bool_decide (i = j) | _ => false end.

Definition final_state {A} (r : MessageManager * list event * (exn + A)) : MessageManager :=
  r.1.1.
Definition trace_of {A} (r : MessageManager * list event * (exn + A)) : list event :=
  r.1.2.
Definition outcome {A} (r : MessageManager * list event * (exn + A)) : exn + A :=
  r.2.

(** ** [_auto_reply_worker] *)

Section Worker.
Context (rt : PyRuntime).

(** Lines 739-747, under [message_lock]: record the identity, and when
    the set has grown past 1000 drop the first 500 members Python
    enumerates. *)
Definition mark_processed (msg_id : string) : M unit :=
  self ← get_self;
  let added := {[msg_id]} ∪ processed_messages self in
  modify_self (set_processed added) ;;
  if (1000 <? size added)%nat then
    let old_messages := take 500 (set_iter rt added) in
    foldr (λ old_msg rest,
             modify_self (λ s, set_processed (processed_messages s ∖ {[old_msg]}) s) ;;
             emit (EvDiscard old_msg) ;;
             rest)
          (mret tt) old_messages
  else mret tt.

(** Lines 798-827: what follows the call of [send_message]. *)
Definition record_send_result (msg_id : string) (success : bool) (today : string)
    : M unit :=
  if success then
    modify_self (λ s, set_replied ({[msg_id]} ∪ replied_messages s) s) ;;
    db_getattr "add_reply_log" ;;
    modify_self (_update_today_count today)
  else
    db_getattr "add_reply_log".

(** Lines 775-829: the rate limit, the delay, the delivery. *)
Definition reply_to (sess : session) (msg_id : string) (env : msg_env)
    (reply_result : match_result) : M unit :=
  let reply_content := m_reply_content reply_result in
  today_count ← getattr "today_reply_count";
  daily_limit ← getattr "daily_limit";
  limited ← (if (0 <? daily_limit)%Z
             then daily_limit' ← getattr "daily_limit";
                  mret (daily_limit' <=? today_count)%Z
             else mret false);
  if (limited : bool) then mret tt
  else
    min_delay ← getattr "min_delay";
    max_delay ← getattr "max_delay";
    delay ← randint (rand_raw env) min_delay max_delay;
    py_sleep rt delay ;;
    emit (EvSend msg_id (talker_id sess) reply_content (session_type sess)) ;;
    record_send_result msg_id (send_result env).1 (today env).

(** Lines 703-829: the body of the per-message [try]. *)
Definition process_message_body (sess : session) (current_time : Q)
    (msg : gmap string pyval) (env : msg_env) : M unit :=
  let sender_uid := dict_get msg "sender_uid" PNone in
  let msg_type := dict_get msg "msg_type" (PInt 0) in
  let msg_timestamp := dict_get msg "timestamp" (PInt 0) in
  py_localtime rt msg_timestamp ;;
  self ← get_self;
  if py_str sender_uid =? account_uid self then mret tt
  else if negb (bool_decide (msg_type = PInt 1)) then mret tt
  else
    let msg_id := _generate_message_id rt (talker_id sess) msg in
    if bool_decide (msg_id ∈ processed_messages self) then mret tt
    else
      time_diff ← (match msg_timestamp with
                   | PInt ts => mret (current_time - inject_Z ts)%Q
                   | _ => raise TypeError
                   end);
      if negb (Qle_bool time_diff 86400) then mret tt
      else
        mark_processed msg_id ;;
        match dict_get msg "content" (PStr "") with
        | PStr content_raw =>
            if content_raw =? "" then mret tt
            else
              let message_text :=
                match json_content rt content_raw with
                | Some v => v
                | None => PStr content_raw
                end in
              match message_text with
              | PNone => mret tt
              | PInt n => if (n =? 0)%Z then mret tt else raise (AttributeError "strip")
              | PStr text =>
                  if (text =? "") || (py_strip text =? "") then mret tt
                  else
                    self ← get_self;
                    reply_result ← lift_result
                      (match_auto_reply rt self (PStr (py_strip text)));
                    match reply_result with
                    | Some res => reply_to sess msg_id env res
                    | None => mret tt
                    end
              end
        | _ => raise TypeError     (* content_raw[:50] *)
        end.

(** One turn of [for msg in messages]: the body under its handler. *)
Definition process_message (sess : session) (current_time : Q)
    (msg : gmap string pyval) (env : msg_env) : M unit :=
  try_except (process_message_body sess current_time msg env)
             (λ e, emit (EvCaught e)).

Definition cancelled (self : MessageManager) : bool :=
  stop_listening self || negb (auto_reply_enabled self).

(** [for msg in messages], with the cancellation test at its top. *)
Fixpoint process_messages (sess : session) (current_time : Q)
    (messages : list (gmap string pyval * msg_env)) : M unit :=
  match messages with
  | [] => mret tt
  | (msg, env) :: rest =>
      self ← get_self;
      if cancelled self then mret tt
      else
        process_message sess current_time msg env ;;
        process_messages sess current_time rest
  end.

(** Lines 676-695: the preview of the first three messages.  Nothing is
    shown here, but the formatting can raise. *)
Definition preview_message (msg : gmap string pyval) : M unit :=
  let msg_type := dict_get msg "msg_type" (PInt 0) in
  let msg_timestamp := dict_get msg "timestamp" (PInt 0) in
  let content_raw := dict_get msg "content" (PStr "") in
  message_text ←
    (if bool_decide (msg_type = PInt 1) then
       match content_raw with
       | PStr raw =>
           match json_content rt raw with
           | Some v => mret v
           | None => mret (PStr (substring 0 50 raw))
           end
       | other =>
           (* json.loads raises; the handler slices content_raw *)
           if py_truthy other then raise TypeError else mret (PStr "")
       end
     else mret (PStr ""));
  py_localtime rt msg_timestamp ;;
  match message_text with
  | PStr _ => mret tt
  | _ => raise TypeError        (* message_text[:30] *)
  end.

(** [session.get('last_msg', {}).get('timestamp', 0)] *)
Definition last_msg_timestamp (sess : session) : M pyval :=
  match last_msg sess with
  | Some last => mret (dict_get last "timestamp" (PInt 0))
  | None => raise (AttributeError "get")
  end.

(** Lines 624-643: one line of the overview of the first ten sessions.
    Nothing is shown here, but the comparison and the formatting can
    raise. *)
Definition overview_session (sess : session) : M unit :=
  msg_timestamp ← last_msg_timestamp sess;
  match msg_timestamp with
  | PInt ts => if (0 <? ts)%Z then py_localtime rt (PInt ts) else mret tt
  | _ => raise TypeError        (* msg_timestamp > 0 *)
  end.

(** One turn of [for i, session in enumerate(sessions[:max_scan])]. *)
Definition scan_session (inp : scan_input) (i : nat) (sess : session) : M unit :=
  if (talker_id sess =? 0)%Z then mret tt
  else
    msg_timestamp ← last_msg_timestamp sess;
    py_localtime rt msg_timestamp ;;
    match in_fetch inp i with
    | None => mret tt
    | Some [] => mret tt
    | Some messages =>
        foldr (λ m rest, preview_message m.1 ;; rest) (mret tt) (take 3 messages) ;;
        process_messages sess (in_current_time inp) messages
    end.

Fixpoint scan_sessions (inp : scan_input) (i : nat) (sessions : list session)
    : M unit :=
  match sessions with
  | [] => mret tt
  | sess :: rest =>
      self ← get_self;
      if cancelled self then mret tt
      else scan_session inp i sess ;; scan_sessions inp (S i) rest
  end.

(** The body of [while not self.stop_listening and self.auto_reply_enabled]. *)
Definition worker_iteration (inp : scan_input) : M unit :=
  try_except
    (match in_sessions inp with
     | None => py_sleep rt 10
     | Some [] => py_sleep rt 8
     | Some sessions =>
         foldr (λ sess rest, overview_session sess ;; rest) (mret tt)
           (take 10 sessions) ;;
         let max_scan := Nat.min 20 (length sessions) in
         scan_sessions inp 0 (take max_scan sessions) ;;
         scan_interval ← getattr "scan_interval";
         py_sleep rt scan_interval
     end)
    (λ e, emit (EvCaught e) ;; py_sleep rt 10).

(** The loop, run against the answers [inputs] of its first iterations. *)
Fixpoint _auto_reply_worker (inputs : list scan_input) : M unit :=
  match inputs with
  | [] => mret tt
  | inp :: rest =>
      self ← get_self;
      if cancelled self then mret tt
      else worker_iteration inp ;; _auto_reply_worker rest
  end.
End Worker.

(** ** Vocabulary of the statements *)

(** [r1] is tried before [r2]: higher priority first, and among equal
    priorities the rule created earlier first. *)
Definition rule_before (r1 r2 : rule) : Prop :=
  (r_priority r2 < r_priority r1)%Z
  ∨ (r_priority r1 = r_priority r2 ∧ (r_created_time r1 <= r_created_time r2)%Q).

(** Empty or whitespace-only, as tested by [not s or not s.strip()]. *)
Definition blank (s : string) : bool := (s =? "") || (py_strip s =? "").

(** What [match_auto_reply] may hand back for [text]: no exception, and a
    record only for an enabled rule with a non-blank keyword whose test
    came out true. *)
Definition sound_answer (rt : PyRuntime) (self : MessageManager) (text : string)
    (res : exn + option match_result) : Prop :=
  match res with
  | inl _ => False
  | inr None => True
  | inr (Some m) =>
      ∃ r, r ∈ get_auto_reply_rules (db self) (account_uid self) true
           ∧ m = result_of_rule r
           ∧ py_strip (r_keyword r) ≠ ""
           ∧ eval_rule rt (py_strip (r_keyword r)) r text = inr true
  end.

(** The keys [_generate_message_id] reads from a message. *)
Definition identity_keys : list (string * pyval) :=
  [ ("sender_uid", PStr ""); ("timestamp", PInt 0); ("msg_key", PStr "");
    ("msg_seqno", PStr ""); ("content", PStr "") ].

(** ** A sample runtime and sample data, for running the model

    [re] agrees with CPython on the three shapes of pattern used below:
    [.*] finds a match in every text, [(] does not compile, and a pattern
    free of metacharacters is searched for literally.  [hashlib] is the
    table of the MD5 digests of the four contents used below, [difflib] is
    a constant, [json] always fails to decode (the sample contents are
    plain text, so the raw content is the text), and a set is enumerated
    in the lexicographic order of its members.  [time.sleep] accepts up to
    9223372036 seconds (64 bits of nanoseconds). *)

(** The [time.localtime] of the sample runtime: the timestamps of the
    years 1970 to 3000 are broken down, any other that fits [time_t] gives
    [OSError], and one that does not fit gives [OverflowError]. *)
Definition sample_localtime_error (ts : Z) : option exn :=
  if in_int64 ts
  then if (0 <=? ts)%Z && (ts <=? 32535215999)%Z then None else Some OSError
  else Some OverflowError.

Definition sample_runtime : PyRuntime :=
  {| re_search := λ pattern text ignorecase,
       if pattern =? "(" then None
       else if pattern =? ".*" then Some true
       else Some (if ignorecase then py_in (py_lower pattern) (py_lower text)
                  else py_in pattern text);
     re_escape := λ s, s;
     SequenceMatcher_ratio := λ _ _, 0%Q;
     md5_hexdigest := λ s,
       if s =? "hi" then "49f68a5c8493ec2c0bf489821c21fc3b"
       else if s =? "hi again" then "1ac27d332eb4ffd2feadc70c80452435"
       else if s =? "cat" then "d077f244def8a70e5ea758bd8352fcd8"
       else if s =? "hello" then "5d41402abc4b2a76b9719d911017c592"
       else "d41d8cd98f00b204e9800998ecf8427e";
     json_content := λ _, None;
     set_iter := λ s, merge_sort String.le (elements s);
     set_iter_perm := λ s, merge_sort_Permutation String.le (elements s);
     localtime_error := sample_localtime_error;
     localtime_range := ltac:(
       intros ts; unfold sample_localtime_error, in_int64;
       destruct (_ && _) eqn:Hfits; [intros _; lia|discriminate]);
     sleep_max := 9223372036;
     sleep_max_ten := ltac:(lia) |}.

Definition sample_rule (id : Z) (keyword reply kind : string) (prio : Z)
    (created : Q) : rule :=
  {| r_account_uid := "42"; r_id := id; r_keyword := keyword;
     r_reply_content := reply; r_match_type := kind;
     r_case_sensitive := false; r_enabled := true; r_priority := prio;
     r_description := ""; r_created_time := created; r_updated_time := created |}.

Definition sample_db (rules : list rule) : AutoReplyDatabase :=
  {| db_ok := true; rules_table := rules; stats_table := ∅;
     configs_table := ∅; logs_table := [] |}.

Definition sample_message (sender ts : Z) (content : string) : gmap string pyval :=
  {[ "sender_uid" := PInt sender; "msg_type" := PInt 1; "timestamp" := PInt ts;
     "content" := PStr content; "msg_key" := PInt 99; "msg_seqno" := PInt 3 ]}.

Definition sample_session : session :=
  {| talker_id := 7; session_type := 1; session_name := "bob"; last_msg := Some ∅ |}.

Definition sample_env : msg_env :=
  {| rand_raw := 3; send_result := (true, ""); today := "2024-01-01" |}.

(** The flag writes of [start_auto_reply_listener]. *)
Definition set_listening (self : MessageManager) : MessageManager :=
  {| account_uid := account_uid self;
     attrs := attrs self;
     auto_reply_enabled := true;
     stop_listening := false;
     processed_messages := processed_messages self;
     replied_messages := replied_messages self;
     db := db self |}.

(** A freshly constructed manager for account 42 over the given rules,
    with its listener started. *)
Definition sample_manager (rules : list rule) : MessageManager :=
  set_listening (MessageManager_init (sample_db rules) "42" "2024-01-01").

(** The two rules of the priority example: A (priority 5, contains "a",
    created first) and B (priority 10, exact "cat"). *)
Definition priority_rules : list rule :=
  [ sample_rule 1 "a" "reply A" "contains" 5 (100 # 1);
    sample_rule 2 "cat" "reply B" "exact" 10 (200 # 1) ].

(** A rule that matches every text, also the empty one. *)
Definition catch_all_rules : list rule :=
  [ sample_rule 1 ".*" "hello" "regex" 0 (100 # 1) ].


(** A two-sided invariant of a worker action started in [self]: if [I]
    holds of [self] and every event of the run satisfies the guard [g],
    then [I] holds of the final state and every event satisfies [t]. *)
Definition respects_at (I : MessageManager → Prop) (g t : event → bool)
    {A : Type} (m : M A) (self : MessageManager) : Prop :=
  I self → forallb g (trace_of (m self)) = true →
  I (final_state (m self)) ∧ forallb t (trace_of (m self)) = true.

(** One enabled rule: answer "hello" to a text containing "hi". *)
Definition hi_rules : list rule :=
  [ sample_rule 1 "hi" "hello" "contains" 0 (100 # 1) ].

(** A manager on which some caller has assigned the two attributes that
    [reply_to] reads ([min_delay], [max_delay]); nothing in the repository
    assigns them. *)
Definition deliverable_manager (rules : list rule) : MessageManager :=
  set_attr "max_delay" 8 (set_attr "min_delay" 2 (sample_manager rules)).

(** An iteration in which [get_sessions] succeeds with no session. *)
Definition no_sessions (now : Q)
    (fetch : nat → option (list (gmap string pyval * msg_env))) : scan_input :=
  {| in_sessions := Some []; in_current_time := now; in_fetch := fetch |}.

(** An iteration with the one sample session, whose fetch fails. *)
Definition one_session_fetch_fails (now : Q) : scan_input :=
  {| in_sessions := Some [sample_session]; in_current_time := now;
     in_fetch := λ _, None |}.

(** An iteration with the one sample session holding the given messages,
    each processed under [sample_env]. *)
Definition one_session (now : Q) (messages : list (gmap string pyval)) : scan_input :=
  {| in_sessions := Some [sample_session]; in_current_time := now;
     in_fetch := λ _, Some ((λ m, (m, sample_env)) <$> messages) |}.

Definition no_sends (tr : list event) : bool := forallb (λ ev, negb (is_send ev)) tr.
Definition no_sleeps (tr : list event) : bool := forallb (λ ev, negb (is_sleep ev)) tr.
Definition no_sends_for (i : string) (tr : list event) : bool :=
  forallb (λ ev, negb (is_send_for i ev)) tr.
Definition no_discard_of (i : string) (tr : list event) : bool :=
  forallb (λ ev, negb (is_discard_of i ev)) tr.

(** The identities of a run of fresh messages, recorded one after the
    other as the worker does at lines 739-747. *)
Fixpoint mark_all (rt : PyRuntime) (msg_ids : list string) : M unit :=
  match msg_ids with
  | [] => mret tt
  | msg_id :: rest => mark_processed rt msg_id ;; mark_all rt rest
  end.

(** The identity of the sample peer's message sent at [ts]. *)
Definition identity_at (ts : Z) : string :=
  _generate_message_id sample_runtime 7 (sample_message 7 ts "hello").

(** 1001 messages in the order in which the worker meets them: the one
    sent at 2000 first, the one sent at 1000 last. *)
Definition arrival_order : list string :=
  (λ k, identity_at (2000 - Z.of_nat k)) <$> seq 0 1001.

(** The 500 identities met last, most recent first. *)
Definition met_last : list string :=
  (λ k, identity_at (1000 + Z.of_nat k)) <$> seq 0 500.

(** ** The rest of [AutoReplyDatabase]: rules, settings, logs *)

Definition set_rules_table (rules : list rule) (db : AutoReplyDatabase)
    : AutoReplyDatabase :=
  {| db_ok := db_ok db; rules_table := rules; stats_table := stats_table db;
     configs_table := configs_table db; logs_table := logs_table db |}.

Definition set_configs_table (configs : gmap string config_row)
    (db : AutoReplyDatabase) : AutoReplyDatabase :=
  {| db_ok := db_ok db; rules_table := rules_table db; stats_table := stats_table db;
     configs_table := configs; logs_table := logs_table db |}.

Definition set_logs_table (logs : list log_row) (db : AutoReplyDatabase)
    : AutoReplyDatabase :=
  {| db_ok := db_ok db; rules_table := rules_table db; stats_table := stats_table db;
     configs_table := configs_table db; logs_table := logs |}.

(** [WHERE id = ? AND account_uid = ?] *)
Definition rule_is (account_uid : string) (rule_id : Z) (r : rule) : bool :=
  (r_id r =? rule_id)%Z && (r_account_uid r =? account_uid).

(** The [SET] clause of the [UPDATE] in [save_auto_reply_rule]. *)
Definition update_rule_row (keyword reply_content match_type : string)
    (case_sensitive enabled : bool) (priority : Z) (description : string)
    (current_time : Q) (r : rule) : rule :=
  {| r_account_uid := r_account_uid r; r_id := r_id r;
     r_keyword := keyword; r_reply_content := reply_content;
     r_match_type := match_type; r_case_sensitive := case_sensitive;
     r_enabled := enabled; r_priority := priority; r_description := description;
     r_created_time := r_created_time r; r_updated_time := current_time |}.

(** [save_auto_reply_rule].  [rule_id] is the optional argument ([None] by
    default; the test [if rule_id:] also fails on 0); [current_time] is
    [time.time()] and [lastrowid] the row id SQLite assigns to an inserted
    row.  On an [UPDATE] the given id is returned whether or not a row
    carried it; any failure gives 0, and a priority or an id that does not
    fit 64 bits is such a failure. *)
Definition save_auto_reply_rule (db : AutoReplyDatabase)
    (account_uid keyword reply_content match_type : string)
    (case_sensitive enabled : bool) (priority : Z) (description : string)
    (rule_id : option Z) (current_time : Q) (lastrowid : Z)
    : AutoReplyDatabase * Z :=
  if db_ok db then
    match rule_id with
    | Some id =>
        if (id =? 0)%Z then
          if negb (in_int64 priority) then (db, 0%Z) else
          (set_rules_table
             (rules_table db ++
                [{| r_account_uid := account_uid; r_id := lastrowid;
                    r_keyword := keyword; r_reply_content := reply_content;
                    r_match_type := match_type; r_case_sensitive := case_sensitive;
                    r_enabled := enabled; r_priority := priority;
                    r_description := description;
                    r_created_time := current_time;
                    r_updated_time := current_time |}]) db, lastrowid)
        else
          if negb (in_int64 priority && in_int64 id) then (db, 0%Z) else
          (set_rules_table
             (map (λ r, if rule_is account_uid id r
                        then update_rule_row keyword reply_content match_type
                               case_sensitive enabled priority description
                               current_time r
                        else r) (rules_table db)) db, id)
    | None =>
        if negb (in_int64 priority) then (db, 0%Z) else
        (set_rules_table
           (rules_table db ++
              [{| r_account_uid := account_uid; r_id := lastrowid;
                  r_keyword := keyword; r_reply_content := reply_content;
                  r_match_type := match_type; r_case_sensitive := case_sensitive;
                  r_enabled := enabled; r_priority := priority;
                  r_description := description;
                  r_created_time := current_time;
                  r_updated_time := current_time |}]) db, lastrowid)
    end
  else (db, 0%Z).

(** [delete_auto_reply_rule]: [rowcount > 0]. *)
Definition delete_auto_reply_rule (db : AutoReplyDatabase) (account_uid : string)
    (rule_id : Z) : AutoReplyDatabase * bool :=
  if db_ok db then
    (set_rules_table
       (List.filter (λ r, negb (rule_is account_uid rule_id r)) (rules_table db)) db,
     existsb (rule_is account_uid rule_id) (rules_table db))
  else (db, false).

(** [toggle_rule_status]: [SET enabled = NOT enabled, updated_time = ?]. *)
Definition toggle_rule_status (db : AutoReplyDatabase) (account_uid : string)
    (rule_id : Z) (current_time : Q) : AutoReplyDatabase * bool :=
  if db_ok db then
    (set_rules_table
       (map (λ r, if rule_is account_uid rule_id r
                  then update_rule_row (r_keyword r) (r_reply_content r)
                         (r_match_type r) (r_case_sensitive r)
                         (negb (r_enabled r)) (r_priority r) (r_description r)
                         current_time r
                  else r) (rules_table db)) db,
     existsb (rule_is account_uid rule_id) (rules_table db))
  else (db, false).

(** [save_account_config]: [INSERT OR REPLACE] on the unique account; an
    integer that does not fit 64 bits is refused and nothing is written.
    The [config_data] column, which the manager only hands back as it
    read it, is not part of [config_row]. *)
Definition save_account_config (db : AutoReplyDatabase) (account_uid : string)
    (auto_reply_enabled : bool) (reply_delay_min reply_delay_max : Z)
    (daily_limit scan_interval : Z) (current_time : Q)
    : AutoReplyDatabase * bool :=
  if db_ok db && in_int64 reply_delay_min && in_int64 reply_delay_max
     && in_int64 daily_limit && in_int64 scan_interval then
    (set_configs_table
       (<[account_uid := {| c_auto_reply_enabled := auto_reply_enabled;
                            c_reply_delay_min := reply_delay_min;
                            c_reply_delay_max := reply_delay_max;
                            c_daily_limit := daily_limit;
                            c_scan_interval := Some scan_interval;
                            c_updated_time := current_time |}]>
          (configs_table db)) db, true)
  else (db, false).

(** [ORDER BY created_time DESC] *)
Definition newest_first (l1 l2 : log_row) : bool :=
  Qle_bool (l_created_time l2) (l_created_time l1).

(** [get_reply_logs]: [LIMIT ? OFFSET ?]; in SQLite a negative limit means
    no limit and a negative offset means 0; a limit or an offset that does
    not fit 64 bits is refused, and the answer is the empty list of the
    [except] branch.  The rows come without their row id. *)
Definition get_reply_logs (db : AutoReplyDatabase) (account_uid : string)
    (limit offset : Z) : list log_row :=
  if db_ok db && in_int64 limit && in_int64 offset then
    let rows := stable_sort newest_first
                  (List.filter (λ l, l_account_uid l =? account_uid) (logs_table db)) in
    let rows := drop (Z.to_nat offset) rows in
    if (limit <? 0)%Z then rows else take (Z.to_nat limit) rows
  else [].

(** [delete_old_logs]: [DELETE ... WHERE created_time < cutoff], for every
    account.  The cutoff is computed inside the [try]: a number of seconds
    too large for a float ends in the [except] branch. *)
Definition delete_old_logs (db : AutoReplyDatabase) (days : Z) (current_time : Q)
    : AutoReplyDatabase * bool :=
  if db_ok db && negb (float_of_int_overflows (days * 24 * 3600)) then
    let cutoff_time := (current_time - inject_Z (days * 24 * 3600))%Q in
    (set_logs_table
       (List.filter (λ l, Qle_bool cutoff_time (l_created_time l)) (logs_table db)) db,
     true)
  else (db, false).

(** ** The rest of [MessageManager]: the wrappers over the database *)

Definition set_db (database : AutoReplyDatabase) (self : MessageManager)
    : MessageManager :=
  {| account_uid := account_uid self;
     attrs := attrs self;
     auto_reply_enabled := auto_reply_enabled self;
     stop_listening := stop_listening self;
     processed_messages := processed_messages self;
     replied_messages := replied_messages self;
     db := database |}.

Definition set_auto_reply_enabled (b : bool) (self : MessageManager) : MessageManager :=
  {| account_uid := account_uid self;
     attrs := attrs self;
     auto_reply_enabled := b;
     stop_listening := stop_listening self;
     processed_messages := processed_messages self;
     replied_messages := replied_messages self;
     db := db self |}.

(** [MessageManager.save_account_config(auto_reply_enabled=None)] *)
Definition MessageManager_save_account_config (enabled : option bool)
    (current_time : Q) : M unit :=
  (match enabled with
   | Some b => modify_self (set_auto_reply_enabled b)
   | None => mret tt
   end) ;;
  reply_delay_min ← getattr "reply_delay_min";
  reply_delay_max ← getattr "reply_delay_max";
  daily_limit ← getattr "daily_limit";
  scan_interval ← getattr "scan_interval";
  modify_self (λ self,
    set_db (save_account_config (db self) (account_uid self)
              (auto_reply_enabled self) reply_delay_min reply_delay_max
              daily_limit scan_interval current_time).1 self).

(** [MessageWindow.save_config]: the attribute writes, then the save. *)
Definition MessageWindow_save_config (delay_min delay_max daily_limit scan_interval : Z)
    (current_time : Q) : M unit :=
  modify_self (gui_save_config delay_min delay_max daily_limit scan_interval) ;;
  MessageManager_save_account_config None current_time.

(** [MessageManager.add_auto_reply_rule] *)
Definition add_auto_reply_rule (self : MessageManager)
    (keyword reply_content match_type : string) (case_sensitive enabled : bool)
    (priority : Z) (description : string) (current_time : Q) (lastrowid : Z)
    : MessageManager * Z :=
  let res := save_auto_reply_rule (db self) (account_uid self) keyword reply_content
               match_type case_sensitive enabled priority description None
               current_time lastrowid in
  (set_db res.1 self, res.2).

(** [MessageManager.update_auto_reply_rule]: [result > 0]. *)
Definition update_auto_reply_rule (self : MessageManager) (rule_id : Z)
    (keyword reply_content match_type : string) (case_sensitive enabled : bool)
    (priority : Z) (description : string) (current_time : Q) (lastrowid : Z)
    : MessageManager * bool :=
  let res := save_auto_reply_rule (db self) (account_uid self) keyword reply_content
               match_type case_sensitive enabled priority description (Some rule_id)
               current_time lastrowid in
  (set_db res.1 self, (0 <? res.2)%Z).

(** [MessageManager.delete_auto_reply_rule] *)
Definition MessageManager_delete_auto_reply_rule (self : MessageManager) (rule_id : Z)
    : MessageManager * bool :=
  let res := delete_auto_reply_rule (db self) (account_uid self) rule_id in
  (set_db res.1 self, res.2).

(** [MessageManager.toggle_rule_status] *)
Definition MessageManager_toggle_rule_status (self : MessageManager) (rule_id : Z)
    (current_time : Q) : MessageManager * bool :=
  let res := toggle_rule_status (db self) (account_uid self) rule_id current_time in
  (set_db res.1 self, res.2).

(** A log of three replies: account 42 at times 100 and 300, account 43 at
    time 200. *)
Definition sample_logs_db : AutoReplyDatabase :=
  let d1 := (log_auto_reply (sample_db hi_rules) "42" "7" "hi" "hello" "hi"
               "contains" 1 100 "2024-01-01").1 in
  let d2 := (log_auto_reply d1 "43" "8" "hi" "hello" "hi" "contains" 1 200
               "2024-01-01").1 in
  (log_auto_reply d2 "42" "7" "hi again" "hello" "hi" "contains" 1 300
     "2024-01-02").1.

(** The sample peer's message with a timestamp that is not a number. *)
Definition undated_message : gmap string pyval :=
  <["timestamp" := PStr "soon"]> (sample_message 7 1000 "hi").

(** The exceptions a timestamp can end in before any message is
    processed: a comparison or a formatting with a value that is no
    number, the lookup in a [last_msg] that is [null], and whatever
    [time.localtime] raises on an integer. *)
Definition timestamp_exn (rt : PyRuntime) (e : exn) : Prop :=
  e = TypeError ∨ e = AttributeError "get" ∨ ∃ ts, localtime_error rt ts = Some e.

(** An action that, started in [self], neither changes the object nor
    shows to the outside: it returns, or raises an exception [ok] allows. *)
Definition silent {A : Type} (ok : exn → Prop) (m : M A) (self : MessageManager)
    : Prop :=
  ∃ res, m self = (self, [], res) ∧ ∀ e, res = inl e → ok e.

(* ================================================================== *)
(** * Part II: properties *)
(* ================================================================== *)

(** ** The stable sort *)

Section StableSortFacts.
Context {A : Type} (leb : A → A → bool).

Lemma insert_sorted_perm x l : insert_sorted leb x l ≡ₚ x :: l.
Proof.
  induction l as [|y l IH]; simpl; [done|].
  destruct (leb x y); [done|].
  rewrite IH. apply perm_swap.
Qed.

Lemma stable_sort_perm l : stable_sort leb l ≡ₚ l.
Proof.
  induction l as [|x l IH]; simpl; [done|].
  rewrite insert_sorted_perm. by rewrite IH.
Qed.

Lemma insert_sorted_first x l :
  Forall (λ y, leb x y = true) l → insert_sorted leb x l = x :: l.
Proof. destruct 1 as [|y l Hy _]; simpl; [done|]. by rewrite Hy. Qed.

Lemma stable_sort_fixed (R : A → A → Prop) l :
  (∀ x y, R x y → leb x y = true) →
  StronglySorted R l → stable_sort leb l = l.
Proof.
  intros HR. induction 1 as [|x l Hl IH Hx]; simpl; [done|].
  rewrite IH. apply insert_sorted_first.
  eapply Forall_impl; [exact Hx|]. auto.
Qed.

Section Order.
Hypothesis leb_total : ∀ x y, leb x y = false → leb y x = true.
Hypothesis leb_trans : ∀ x y z, leb x y = true → leb y z = true → leb x z = true.

Lemma insert_sorted_sorted x l :
  StronglySorted (λ a b, leb a b = true) l →
  StronglySorted (λ a b, leb a b = true) (insert_sorted leb x l).
Proof.
  induction 1 as [|y l Hl IH Hy]; simpl.
  - repeat constructor.
  - destruct (leb x y) eqn:Hxy.
    + constructor; [by constructor|].
      constructor; [done|].
      eapply Forall_impl; [exact Hy|]. simpl. eauto.
    + constructor; [done|].
      rewrite insert_sorted_perm. constructor; [|done]. by apply leb_total.
Qed.

Lemma stable_sort_sorted l :
  StronglySorted (λ a b, leb a b = true) (stable_sort leb l).
Proof.
  induction l as [|x l IH]; simpl; [constructor|].
  by apply insert_sorted_sorted.
Qed.
End Order.
End StableSortFacts.

(** ** The order of the rules *)

Lemma sql_rule_order_spec r1 r2 : sql_rule_order r1 r2 = true ↔ rule_before r1 r2.
Proof.
  unfold sql_rule_order, rule_before.
  rewrite orb_true_iff, andb_true_iff, Z.ltb_lt, Z.eqb_eq, Qle_bool_iff.
  tauto.
Qed.

Lemma sql_rule_order_total r1 r2 :
  sql_rule_order r1 r2 = false → sql_rule_order r2 r1 = true.
Proof.
  intros Hf. apply sql_rule_order_spec.
  assert (Hn : ¬ rule_before r1 r2).
  { intros H. apply sql_rule_order_spec in H. congruence. }
  unfold rule_before in *.
  destruct (Z.lt_total (r_priority r1) (r_priority r2)) as [Hlt|[Heq|Hgt]].
  - by left.
  - right. split; [done|].
    destruct (Qlt_le_dec (r_created_time r2) (r_created_time r1)) as [Hc|Hc].
    + by apply Qlt_le_weak.
    + exfalso. apply Hn. by right.
  - exfalso. apply Hn. by left.
Qed.

Lemma sql_rule_order_trans r1 r2 r3 :
  sql_rule_order r1 r2 = true → sql_rule_order r2 r3 = true →
  sql_rule_order r1 r3 = true.
Proof.
  rewrite !sql_rule_order_spec. unfold rule_before.
  intros [H1|[H1 H1']] [H2|[H2 H2']].
  - left. lia.
  - left. lia.
  - left. lia.
  - right. split; [congruence|]. by eapply Qle_trans.
Qed.

Lemma rule_before_priority r1 r2 :
  rule_before r1 r2 → (r_priority r2 <=? r_priority r1)%Z = true.
Proof. unfold rule_before. intros [H|[H _]]; apply Z.leb_le; lia. Qed.

Lemma StronglySorted_weaken {A} (R S : A → A → Prop) l :
  (∀ x y, R x y → S x y) → StronglySorted R l → StronglySorted S l.
Proof.
  intros HRS. induction 1 as [|x l Hl IH Hx]; constructor; [done|].
  eapply Forall_impl; [exact Hx|]. auto.
Qed.

(** The rows the query returns are in the order of [rule_before]. *)
Lemma get_auto_reply_rules_sorted database uid enabled_only :
  StronglySorted rule_before (get_auto_reply_rules database uid enabled_only).
Proof.
  unfold get_auto_reply_rules. destruct (db_ok database); [|constructor].
  eapply StronglySorted_weaken; [|apply stable_sort_sorted].
  - intros x y. apply sql_rule_order_spec.
  - apply sql_rule_order_total.
  - apply sql_rule_order_trans.
Qed.

(** They are the selected rows of the table. *)
Lemma get_auto_reply_rules_perm database uid enabled_only :
  db_ok database = true →
  get_auto_reply_rules database uid enabled_only
    ≡ₚ List.filter (rule_selected uid enabled_only) (rules_table database).
Proof.
  intros Hok. unfold get_auto_reply_rules. rewrite Hok. apply stable_sort_perm.
Qed.

(** Python's second sort leaves the query's order as it is. *)
Lemma sort_by_priority_query database uid enabled_only :
  sort_by_priority (get_auto_reply_rules database uid enabled_only)
  = get_auto_reply_rules database uid enabled_only.
Proof.
  unfold sort_by_priority.
  eapply stable_sort_fixed; [|apply get_auto_reply_rules_sorted].
  intros x y. apply rule_before_priority.
Qed.

(** ** [match_auto_reply] *)

Section MatcherFacts.
Context (rt : PyRuntime).

(** The loop returns at the first rule that matches. *)
Lemma match_rules_find rules text :
  match_rules rt rules text
  = result_of_rule <$> List.find (rule_matches rt text) rules.
Proof.
  induction rules as [|r rules IH]; simpl; [done|].
  unfold rule_matches.
  destruct (py_strip (r_keyword r) =? "") eqn:Hk; [exact IH|].
  destruct (eval_rule rt (py_strip (r_keyword r)) r text) as [e|[|]]; auto.
Qed.


(** Only the two regular-expression kinds can raise. *)
Lemma eval_rule_raises keyword r text e :
  eval_rule rt keyword r text = inl e →
  e = ReError ∧ (r_match_type r = "regex" ∨ r_match_type r = "word_boundary").
Proof.
  unfold eval_rule.
  repeat match goal with
         | |- context [if ?s =? ?k then _ else _] =>
             let H := fresh "H" in destruct (s =? k) eqn:H
         | |- context [if ?b then _ else _] => destruct b
         | |- context [match ?o with Some _ => _ | None => _ end] => destruct o
         end;
    intros [=]; subst;
    (split; [done|]);
    first [ left; by apply String.eqb_eq | right; by apply String.eqb_eq ].
Qed.

(** On a text that is not blank the matcher is the loop over the rows of
    the query. *)
Lemma match_auto_reply_nonblank self text :
  blank text = false →
  match_auto_reply rt self (PStr text)
  = inr (match_rules rt (get_auto_reply_rules (db self) (account_uid self) true) text).
Proof.
  intros Hb. unfold match_auto_reply, match_auto_reply_body.
  unfold blank in Hb. rewrite Hb.
  pose proof (sort_by_priority_query (db self) (account_uid self) true) as Hs.
  destruct (get_auto_reply_rules (db self) (account_uid self) true) as [|r l]; [done|].
  by rewrite Hs.
Qed.

Lemma match_auto_reply_blank self text :
  blank text = true → match_auto_reply rt self (PStr text) = inr None.
Proof.
  intros Hb. unfold match_auto_reply, match_auto_reply_body.
  unfold blank in Hb. by rewrite Hb.
Qed.

(** The body of the outer [try] does raise on some arguments: the handler
    is not idle. *)
Lemma match_auto_reply_body_raises self :
  match_auto_reply_body rt self (PInt 5) = inl (AttributeError "strip").
Proof. reflexivity. Qed.

Lemma get_auto_reply_rules_enabled database uid r :
  r ∈ get_auto_reply_rules database uid true →
  r_enabled r = true ∧ r_account_uid r = uid ∧ r ∈ rules_table database.
Proof.
  unfold get_auto_reply_rules. destruct (db_ok database); [|by intros ?%elem_of_nil].
  rewrite stable_sort_perm. rewrite list_elem_of_In, filter_In, <- list_elem_of_In.
  unfold rule_selected. simpl.
  intros [Hin [Hu He]%andb_true_iff]. apply String.eqb_eq in Hu. done.
Qed.

End MatcherFacts.

(** C4 (as amended): for every message text that is not blank, the matcher
    answers with the first rule that matches in the list of the account's
    enabled rules ordered by priority descending and, among equal
    priorities, by creation time ascending; it answers none when no such
    rule matches.  A rule matches when its stripped keyword is not empty
    and its test comes out true without raising. *)
Theorem match_auto_reply_first_by_priority (rt : PyRuntime) (self : MessageManager)
    (text : string) :
  blank text = false →
  let enabled := get_auto_reply_rules (db self) (account_uid self) true in
  StronglySorted rule_before enabled
  ∧ (∀ r, r ∈ enabled →
          r_enabled r = true ∧ r_account_uid r = account_uid self
          ∧ r ∈ rules_table (db self))
  ∧ (db_ok (db self) = true →
     enabled ≡ₚ List.filter (rule_selected (account_uid self) true)
                            (rules_table (db self)))
  ∧ match_auto_reply rt self (PStr text)
    = inr (result_of_rule <$> List.find (rule_matches rt text) enabled)
  ∧ (match_auto_reply rt self (PStr text) = inr None
     ↔ ∀ r, r ∈ enabled → rule_matches rt text r = false).
Proof.
  intros Hb enabled.
  assert (Hres : match_auto_reply rt self (PStr text)
                 = inr (result_of_rule <$> List.find (rule_matches rt text) enabled)).
  { rewrite match_auto_reply_nonblank by done. by rewrite match_rules_find. }
  split; [apply get_auto_reply_rules_sorted|].
  split; [apply get_auto_reply_rules_enabled|].
  split; [apply get_auto_reply_rules_perm|].
  split; [exact Hres|].
  rewrite Hres. split.
  - intros [=Hnone] r Hr.
    destruct (List.find (rule_matches rt text) enabled) eqn:Hf; [done|].
    eapply find_none; [exact Hf|]. by apply list_elem_of_In.
  - intros Hall.
    destruct (List.find (rule_matches rt text) enabled) as [r|] eqn:Hf; [|done].
    apply find_some in Hf as [Hin Hm]. apply list_elem_of_In in Hin.
    rewrite (Hall r Hin) in Hm. done.
Qed.

(** The priority example of the specification: rule A (priority 5,
    contains "a") and rule B (priority 10, exact "cat"); "cat" resolves to
    rule B. *)
Lemma match_auto_reply_first_by_priority_witness :
  blank "cat" = false
  ∧ match_auto_reply sample_runtime (sample_manager priority_rules) (PStr "cat")
    = inr (Some {| m_keyword := "cat"; m_keyword_matched := "cat";
                   m_reply_content := "reply B"; m_match_type := "exact";
                   m_rule_id := 2; m_priority := 10 |}).
Proof.
  split; [reflexivity|].
  destruct (match_auto_reply_first_by_priority sample_runtime
              (sample_manager priority_rules) "cat" eq_refl)
    as (_ & _ & _ & Hres & _).
  rewrite Hres. vm_compute. reflexivity.
Defined.

(** C4, as first stated, fails on a blank text: the guard at the top of
    [match_auto_reply] answers none although an enabled rule (the regular
    expression [.*]) matches the empty text. *)
Lemma match_auto_reply_blank_text_counterexample :
  let self := sample_manager catch_all_rules in
  let enabled := get_auto_reply_rules (db self) (account_uid self) true in
  List.find (rule_matches sample_runtime "") enabled
    = Some (sample_rule 1 ".*" "hello" "regex" 0 (100 # 1))
  ∧ match_auto_reply sample_runtime self (PStr "") = inr None
  ∧ match_auto_reply sample_runtime self (PStr "")
    ≠ inr (result_of_rule <$> List.find (rule_matches sample_runtime "") enabled).
Proof.
  vm_compute. repeat split; discriminate.
Qed.



(** C10: whatever it is called with, [match_auto_reply] hands back a
    record or none and lets no exception out; a blank text and an empty
    rule set give none; a record comes from an enabled rule whose stripped
    keyword is not empty, so a rule with a blank keyword never matches. *)
Theorem match_auto_reply_never_raises (rt : PyRuntime) (self : MessageManager)
    (message_text : pyval) :
  (∃ res, match_auto_reply rt self message_text = inr res)
  ∧ match message_text with
    | PStr text =>
        sound_answer rt self text (match_auto_reply rt self (PStr text))
        ∧ (blank text = true → match_auto_reply rt self (PStr text) = inr None)
        ∧ (get_auto_reply_rules (db self) (account_uid self) true = [] →
           match_auto_reply rt self (PStr text) = inr None)
        ∧ (∀ r, py_strip (r_keyword r) = "" → rule_matches rt text r = false)
    | _ => match_auto_reply rt self message_text = inr None
    end.
Proof.
  split.
  { unfold match_auto_reply.
    destruct (match_auto_reply_body rt self message_text); eauto. }
  destruct message_text as [n|text|]; [|..|done].
  { unfold match_auto_reply, match_auto_reply_body. by destruct (n =? 0)%Z. }
  split; [|split; [apply match_auto_reply_blank|split]].
  - destruct (blank text) eqn:Hb.
    { by rewrite match_auto_reply_blank. }
    rewrite match_auto_reply_nonblank, match_rules_find by done.
    destruct (List.find _ _) as [r|] eqn:Hf; simpl; [|done].
    apply find_some in Hf as [Hin Hm]. apply list_elem_of_In in Hin.
    exists r. split; [done|]. split; [done|].
    unfold rule_matches in Hm.
    destruct (py_strip (r_keyword r) =? "") eqn:Hk; [done|].
    apply String.eqb_neq in Hk. split; [done|].
    by destruct (eval_rule rt (py_strip (r_keyword r)) r text) as [?|[|]].
  - intros Hnil. unfold match_auto_reply, match_auto_reply_body.
    rewrite Hnil. by destruct (_ || _).
  - intros r Hr. unfold rule_matches. by rewrite Hr.
Qed.

(** C9: the identity of a message is a function of the peer and of the
    five fields read from the message: two messages that agree on them,
    whatever else they carry, get the same identity. *)
Theorem generate_message_id_deterministic (rt : PyRuntime) (talker1 talker2 : Z)
    (msg1 msg2 : gmap string pyval) :
  talker1 = talker2 →
  Forall (λ kd, dict_get msg1 kd.1 kd.2 = dict_get msg2 kd.1 kd.2) identity_keys →
  _generate_message_id rt talker1 msg1 = _generate_message_id rt talker2 msg2.
Proof.
  intros -> Hk. unfold identity_keys in Hk.
  repeat (apply Forall_cons in Hk as [? Hk]). simpl in *.
  unfold _generate_message_id. congruence.
Qed.

(** Two fetches of the same message that differ in fields the identity
    does not read. *)
Lemma generate_message_id_deterministic_witness :
  let msg1 := sample_message 7 1000 "cat" in
  let msg2 := <["msg_status" := PInt 1]> (<["msg_type" := PInt 2]> msg1) in
  msg1 ≠ msg2
  ∧ _generate_message_id sample_runtime 7 msg1 = "7_7_1000_99_3_d077f244"
  ∧ _generate_message_id sample_runtime 7 msg1
    = _generate_message_id sample_runtime 7 msg2.
Proof.
  intros msg1 msg2. split; [|split].
  - intros Heq. apply (f_equal (λ m : gmap string pyval, m !! "msg_status")) in Heq.
    vm_compute in Heq. discriminate.
  - vm_compute. reflexivity.
  - apply (generate_message_id_deterministic sample_runtime 7 7 msg1 msg2 eq_refl).
    repeat constructor.
Defined.

(** ** Reasoning about worker actions *)

Section Respects.
Context (I : MessageManager → Prop) (g t : event → bool).

Lemma respects_ret {A} (x : A) self : respects_at I g t (mret x) self.
Proof. by intros HI _. Qed.

Lemma respects_raise {A} e self : respects_at I g t (raise (A:=A) e) self.
Proof. by intros HI _. Qed.

Lemma respects_get_self self : respects_at I g t get_self self.
Proof. by intros HI _. Qed.

Lemma respects_lift {A} (r : exn + A) self : respects_at I g t (lift_result r) self.
Proof. destruct r; [apply respects_raise|apply respects_ret]. Qed.

Lemma respects_getattr name self : respects_at I g t (getattr name) self.
Proof. intros HI _. unfold getattr. by destruct (attrs self !! name). Qed.

Lemma respects_db_getattr name self : respects_at I g t (db_getattr name) self.
Proof.
  unfold db_getattr. destruct (bool_decide _); [apply respects_ret|apply respects_raise].
Qed.

Lemma respects_randint raw a b self : respects_at I g t (randint raw a b) self.
Proof.
  unfold randint. destruct (b <? a)%Z; [apply respects_raise|apply respects_ret].
Qed.

Lemma respects_emit ev self :
  (g ev = true → t ev = true) → respects_at I g t (emit ev) self.
Proof.
  intros Hev HI Hg. simpl in *. split; [done|].
  rewrite andb_true_r in *. auto.
Qed.

Lemma respects_sleep rt secs self :
  (g (EvSleep secs) = true → t (EvSleep secs) = true) →
  respects_at I g t (py_sleep rt secs) self.
Proof.
  intros Hev. unfold py_sleep.
  destruct (secs <? 0)%Z; [apply respects_raise|].
  destruct (sleep_max rt <? secs)%Z; [apply respects_raise|by apply respects_emit].
Qed.

Lemma respects_localtime rt v self : respects_at I g t (py_localtime rt v) self.
Proof.
  unfold py_localtime.
  destruct (localtime_exn rt v); [apply respects_raise|apply respects_ret].
Qed.

Lemma respects_last_msg_timestamp sess self :
  respects_at I g t (last_msg_timestamp sess) self.
Proof.
  unfold last_msg_timestamp.
  destruct (last_msg sess); [apply respects_ret|apply respects_raise].
Qed.

Lemma respects_modify f self :
  (I self → I (f self)) → respects_at I g t (modify_self f) self.
Proof. intros Hf HI _. simpl. auto. Qed.

Lemma respects_bind {A B} (m : M A) (f : A → M B) self :
  respects_at I g t m self →
  (∀ x, outcome (m self) = inr x → respects_at I g t (f x) (final_state (m self))) →
  respects_at I g t (m ≫= f) self.
Proof.
  unfold respects_at, mbind, M_bind, final_state, trace_of, outcome.
  destruct (m self) as [[s1 tr1] [e|x]]; simpl; [tauto|].
  intros Hm Hf HI. specialize (Hf x eq_refl).
  destruct (f x s1) as [[s2 tr2] res]; simpl in *.
  rewrite !forallb_app, !andb_true_iff. intros [Hg1 Hg2].
  destruct (Hm HI Hg1) as [HI1 Ht1]. destruct (Hf HI1 Hg2) as [HI2 Ht2]. done.
Qed.

Lemma respects_try {A} (body : M A) (handler : exn → M A) self :
  respects_at I g t body self →
  (∀ e, outcome (body self) = inl e →
        respects_at I g t (handler e) (final_state (body self))) →
  respects_at I g t (try_except body handler) self.
Proof.
  unfold respects_at, try_except, final_state, trace_of, outcome.
  destruct (body self) as [[s1 tr1] [e|x]]; simpl; [|tauto].
  intros Hm Hf HI. specialize (Hf e eq_refl).
  destruct (handler e s1) as [[s2 tr2] res]; simpl in *.
  rewrite !forallb_app, !andb_true_iff. intros [Hg1 Hg2].
  destruct (Hm HI Hg1) as [HI1 Ht1]. destruct (Hf HI1 Hg2) as [HI2 Ht2]. done.
Qed.

(** The binder [self ← get_self] hands the current object on. *)
Lemma respects_bind_self {B} (k : MessageManager → M B) self :
  respects_at I g t (k self) self →
  respects_at I g t (get_self ≫= k) self.
Proof.
  intros Hk. apply respects_bind; [apply respects_get_self|].
  simpl. by intros x [= <-].
Qed.

End Respects.

(** ** Invariants of the worker loop

    What holds of the delivery step [reply_to] for every identity that was
    not yet in the dedup set carries over to the whole loop. *)

Ltac respects_step :=
  lazymatch goal with
  | |- respects_at _ _ _ (mret _) _ => apply respects_ret
  | |- respects_at _ _ _ (raise _) _ => apply respects_raise
  | |- respects_at _ _ _ (lift_result _) _ => apply respects_lift
  | |- respects_at _ _ _ (getattr _) _ => apply respects_getattr
  | |- respects_at _ _ _ (db_getattr _) _ => apply respects_db_getattr
  | |- respects_at _ _ _ (randint _ _ _) _ => apply respects_randint
  | |- respects_at _ _ _ (py_localtime _ _) _ => apply respects_localtime
  | |- respects_at _ _ _ (last_msg_timestamp _) _ => apply respects_last_msg_timestamp
  | |- respects_at _ _ _ (get_self ≫= _) _ => apply respects_bind_self
  | |- respects_at _ _ _ (_ ≫= _) _ => apply respects_bind; [|intros ? _]
  | |- respects_at _ _ _ (if ?b then _ else _) _ => destruct b eqn:?
  | |- respects_at _ _ _ (match ?x with _ => _ end) _ => destruct x eqn:?
  end.

Section WorkerInvariant.
Context (rt : PyRuntime).
Context (I : MessageManager → Prop) (g t : event → bool) (sendable : string → Prop).

Hypothesis I_add : ∀ self msg_id,
  I self → I (set_processed ({[msg_id]} ∪ processed_messages self) self).
Hypothesis I_discard : ∀ self old,
  I self → g (EvDiscard old) = true →
  I (set_processed (processed_messages self ∖ {[old]}) self).
Hypothesis t_sleep : ∀ secs, t (EvSleep secs) = true.
Hypothesis t_discard : ∀ old, t (EvDiscard old) = true.
Hypothesis t_caught : ∀ e, t (EvCaught e) = true.
Hypothesis sendable_fresh : ∀ self msg_id,
  I self → msg_id ∉ processed_messages self → sendable msg_id.
Hypothesis respects_reply_to : ∀ sess msg_id env res self,
  sendable msg_id → respects_at I g t (reply_to rt sess msg_id env res) self.

Lemma respects_discard_step (old : string) (rest : M unit) self :
  (∀ s, respects_at I g t rest s) →
  respects_at I g t
    (modify_self (λ s, set_processed (processed_messages s ∖ {[old]}) s) ;;
     emit (EvDiscard old) ;;
     rest) self.
Proof.
  intros Hrest HI.
  pose proof (Hrest (set_processed (processed_messages self ∖ {[old]}) self)) as Hr.
  unfold respects_at, final_state, trace_of, mbind, M_bind, modify_self, emit in *.
  simpl.
  destruct (rest (set_processed (processed_messages self ∖ {[old]}) self))
    as [[s2 tr2] res]; simpl in *.
  intros [Hg1 Hg2]%andb_true_iff.
  destruct (Hr (I_discard _ _ HI Hg1) Hg2) as [HI2 Ht2].
  split; [done|]. by rewrite t_discard.
Qed.

Lemma respects_discard_loop (old_messages : list string) self :
  respects_at I g t
    (foldr (λ old_msg rest,
              modify_self (λ s, set_processed (processed_messages s ∖ {[old_msg]}) s) ;;
              emit (EvDiscard old_msg) ;;
              rest)
           (mret tt) old_messages) self.
Proof.
  revert self. induction old_messages as [|old l IH]; intros self; simpl.
  { apply respects_ret. }
  by apply respects_discard_step.
Qed.

Lemma respects_mark_processed msg_id self :
  respects_at I g t (mark_processed rt msg_id) self.
Proof.
  unfold mark_processed. respects_step. respects_step.
  { apply respects_modify. apply I_add. }
  respects_step; [apply respects_discard_loop|respects_step].
Qed.

Lemma respects_process_message_body sess now msg env self :
  respects_at I g t (process_message_body rt sess now msg env) self.
Proof.
  unfold process_message_body.
  respects_step.
  { respects_step; respects_step. }
  respects_step. respects_step; [respects_step|].
  respects_step; [respects_step|].
  respects_step; [respects_step|].
  match goal with
  | |- respects_at I g t ?m ?s =>
      enough (Hk : sendable (_generate_message_id rt (talker_id sess) msg) →
                   respects_at I g t m s)
  end.
  { intros HI. apply (Hk (sendable_fresh _ _ HI ltac:(by eapply bool_decide_eq_false_1)) HI). }
  intros Hs.
  repeat first
    [ apply respects_mark_processed
    | apply respects_reply_to; exact Hs
    | respects_step ].
Qed.

Lemma respects_process_message sess now msg env self :
  respects_at I g t (process_message rt sess now msg env) self.
Proof.
  unfold process_message. apply respects_try.
  - apply respects_process_message_body.
  - intros e _. apply respects_emit. by rewrite t_caught.
Qed.

Lemma respects_process_messages sess now messages self :
  respects_at I g t (process_messages rt sess now messages) self.
Proof.
  revert self. induction messages as [|[msg env] rest IH]; intros self; simpl.
  { respects_step. }
  respects_step. respects_step; [respects_step|].
  respects_step; [apply respects_process_message|apply IH].
Qed.

Lemma respects_preview_message msg self :
  respects_at I g t (preview_message rt msg) self.
Proof.
  unfold preview_message. respects_step.
  { repeat respects_step. }
  respects_step.
  { respects_step; respects_step. }
  respects_step; respects_step.
Qed.

Lemma respects_preview_loop (messages : list (gmap string pyval * msg_env))
    (rest : M unit) self :
  (∀ s, respects_at I g t rest s) →
  respects_at I g t
    (foldr (λ m rest, preview_message rt m.1 ;; rest) (mret tt) messages ;; rest) self.
Proof.
  intros Hrest. respects_step; [|apply Hrest].
  revert self. induction messages as [|m l IH]; intros self; simpl.
  { respects_step. }
  respects_step; [apply respects_preview_message|apply IH].
Qed.

Lemma respects_scan_session inp i sess self :
  respects_at I g t (scan_session rt inp i sess) self.
Proof.
  unfold scan_session. respects_step; [respects_step|].
  respects_step; [respects_step|].
  respects_step; [respects_step|].
  respects_step; [|respects_step].
  respects_step; [respects_step|].
  apply respects_preview_loop. intros s. apply respects_process_messages.
Qed.

Lemma respects_scan_sessions inp i sessions self :
  respects_at I g t (scan_sessions rt inp i sessions) self.
Proof.
  revert i self. induction sessions as [|sess rest IH]; intros i self; simpl.
  { respects_step. }
  respects_step. respects_step; [respects_step|].
  respects_step; [apply respects_scan_session|apply IH].
Qed.

Lemma respects_overview (sessions : list session) self :
  respects_at I g t
    (foldr (λ sess rest, overview_session rt sess ;; rest) (mret tt) sessions) self.
Proof.
  revert self. induction sessions as [|sess l IH]; intros self; simpl.
  { respects_step. }
  respects_step; [|apply IH].
  unfold overview_session. repeat respects_step.
Qed.

Lemma respects_worker_iteration inp self :
  respects_at I g t (worker_iteration rt inp) self.
Proof.
  unfold worker_iteration. apply respects_try.
  - respects_step; [|by apply respects_sleep].
    respects_step; [by apply respects_sleep|].
    respects_step; [apply respects_overview|].
    respects_step; [apply respects_scan_sessions|].
    respects_step; [respects_step|]. by apply respects_sleep.
  - intros e _. respects_step; [|by apply respects_sleep].
    apply respects_emit. by rewrite t_caught.
Qed.

Lemma respects_auto_reply_worker inputs self :
  respects_at I g t (_auto_reply_worker rt inputs) self.
Proof.
  revert self. induction inputs as [|inp rest IH]; intros self; simpl.
  { respects_step. }
  respects_step. respects_step; [respects_step|].
  respects_step; [apply respects_worker_iteration|apply IH].
Qed.

End WorkerInvariant.

(** ** The age gate *)

(** C7: a message whose timestamp lies more than 86400 seconds before the
    time of the scan is never answered, whatever its text and whatever
    the rules: the step leaves the object as it was (the message is not
    even recorded as processed) and neither sleeps nor calls
    [send_message].  The age test comes before the insertion into the
    dedup set and before the matcher; the only thing that comes before it
    and can show is the formatting of the timestamp, whose exception, on
    a timestamp the platform cannot break down, goes to the handler of
    the step.  On every other timestamp the step does nothing at all. *)
Theorem stale_message_is_skipped (rt : PyRuntime) (sess : session) (now : Q)
    (msg : gmap string pyval) (env : msg_env) (self : MessageManager) (ts : Z) :
  dict_get msg "timestamp" (PInt 0) = PInt ts →
  (86400 < now - inject_Z ts)%Q →
  let step := process_message rt sess now msg env self in
  step = (self,
          match localtime_error rt ts with
          | Some e => [EvCaught e]
          | None => []
          end,
          inr tt)
  ∧ final_state step = self
  ∧ no_sends (trace_of step) = true
  ∧ no_sleeps (trace_of step) = true.
Proof.
  intros Hts Hold step.
  assert (Hgate : Qle_bool (now - inject_Z ts) 86400 = false).
  { destruct (Qle_bool (now - inject_Z ts) 86400) eqn:Hle; [|done].
    apply Qle_bool_iff in Hle. by apply Qle_not_lt in Hle. }
  assert (Hstep : step = (self,
                          match localtime_error rt ts with
                          | Some e => [EvCaught e]
                          | None => []
                          end, inr tt)).
  { unfold step, process_message, try_except, process_message_body, py_localtime.
    rewrite Hts. unfold localtime_exn.
    destruct (localtime_error rt ts) as [e|]; [done|].
    unfold mbind, M_bind, mret, M_ret, get_self. simpl.
    destruct (py_str (dict_get msg "sender_uid" PNone) =? account_uid self); [done|].
    destruct (bool_decide (dict_get msg "msg_type" (PInt 0) = PInt 1)); [|done].
    simpl.
    destruct (bool_decide (_ ∈ processed_messages self)); [done|].
    simpl. by rewrite Hgate. }
  rewrite Hstep. split; [done|]. split; [done|].
  by destruct (localtime_error rt ts).
Qed.

(** The age-gate example of the specification: a message 90000 seconds
    old that contains "hi" is not answered, although the same message is
    answered when it is 500 seconds old. *)
Lemma stale_message_is_skipped_witness :
  let self := deliverable_manager hi_rules in
  let msg := sample_message 7 1000 "hi" in
  process_message sample_runtime sample_session 91000 msg sample_env self
    = (self, [], inr tt)
  ∧ trace_of (process_message sample_runtime sample_session 1500 msg sample_env self)
    = [ EvSleep 5; EvSend "7_7_1000_99_3_49f68a5c" 7 "hello" 1;
        EvCaught (AttributeError "add_reply_log") ].
Proof.
  intros self msg. split.
  - refine (proj1 (stale_message_is_skipped sample_runtime sample_session 91000 msg
                     sample_env self 1000 _ _)); [reflexivity|].
    unfold Qlt. simpl. lia.
  - vm_compute. reflexivity.
Defined.

(** ** The sleep on an empty session list *)

(** C6 (the code at the failing input): when [get_sessions] succeeds with
    an empty list the worker sleeps 8 seconds, whatever the configured
    scan interval is; the end of a non-empty scan sleeps the configured
    interval. *)
Theorem empty_session_list_sleeps_eight_seconds (rt : PyRuntime)
    (self : MessageManager) (now : Q)
    (fetch : nat → option (list (gmap string pyval * msg_env))) (interval : Z) :
  let self' := set_attr "scan_interval" interval self in
  attrs self' !! "scan_interval" = Some interval
  ∧ worker_iteration rt (no_sessions now fetch) self' = (self', [EvSleep 8], inr tt)
  ∧ trace_of (worker_iteration sample_runtime (no_sessions 1500 (λ _, None))
                (gui_save_config 1 3 0 30 (sample_manager hi_rules)))
    = [EvSleep 8]
  ∧ trace_of (worker_iteration sample_runtime (one_session_fetch_fails 1500)
                (gui_save_config 1 3 0 30 (sample_manager hi_rules)))
    = [EvSleep 30].
Proof.
  intros self'. split; [|split; [|split]].
  - unfold self', set_attr. simpl. apply lookup_insert_eq.
  - unfold worker_iteration, try_except, py_sleep. simpl.
    pose proof (sleep_max_ten rt).
    by rewrite (proj2 (Z.ltb_ge (sleep_max rt) 8)) by lia.
  - vm_compute. reflexivity.
  - vm_compute. reflexivity.
Qed.

(** ** After the delivery *)

Lemma add_reply_log_is_no_method :
  bool_decide ("add_reply_log" ∈ AutoReplyDatabase_methods) = false.
Proof. vm_compute. reflexivity. Qed.

(** What the success branch does call for, and the class does define:
    [log_auto_reply] appends the log row and, on a row of today, adds one
    to both counters (as long as the numbers fit SQLite's integers). *)
Lemma log_auto_reply_counts database uid sender received reply kw kind st now today row :
  db_ok database = true →
  in_int64 st = true →
  stats_table database !! uid = Some row →
  in_int64 (total_replies row + 1) = true →
  in_int64 (today_replies row + 1) = true →
  last_update_date row = today →
  let database' := (log_auto_reply database uid sender received reply kw kind st
                      now today).1 in
  (∃ row', stats_table database' !! uid = Some row'
           ∧ total_replies row' = (total_replies row + 1)%Z
           ∧ today_replies row' = (today_replies row + 1)%Z)
  ∧ length (logs_table database') = S (length (logs_table database)).
Proof.
  intros Hok Hst Hrow Htotal Htoday Hday. unfold log_auto_reply. rewrite Hok, Hst.
  unfold _update_stats. rewrite Hrow, Hday, String.eqb_refl, Htotal, Htoday. simpl.
  split.
  - eexists. rewrite lookup_insert_eq. done.
  - rewrite length_app. simpl. lia.
Qed.

(** C2 (the code at the failing input): after a delivery the transport
    reports as successful the identity enters the replied set, and then
    the lookup of [add_reply_log], which [AutoReplyDatabase] does not
    define, raises: no log row is written and neither counter moves.  The
    per-message handler swallows the exception. *)
Theorem successful_delivery_is_not_recorded (msg_id today : string)
    (self : MessageManager) :
  let after := record_send_result msg_id true today self in
  outcome after = inl (AttributeError "add_reply_log")
  ∧ msg_id ∈ replied_messages (final_state after)
  ∧ db (final_state after) = db self
  ∧ attrs (final_state after) = attrs self
  ∧ (let self := deliverable_manager hi_rules in
     let step := process_message sample_runtime sample_session 1500
                   (sample_message 7 1000 "hi") sample_env self in
     send_result sample_env = (true, "")
     ∧ trace_of step = [ EvSleep 5; EvSend "7_7_1000_99_3_49f68a5c" 7 "hello" 1;
                         EvCaught (AttributeError "add_reply_log") ]
     ∧ logs_table (db (final_state step)) = []
     ∧ get_reply_stats (db (final_state step)) "42" = None
     ∧ attrs (final_state step) !! "today_reply_count" = Some 0%Z
     ∧ elements (replied_messages (final_state step)) = ["7_7_1000_99_3_49f68a5c"]).
Proof.
  intros after. unfold after, record_send_result, db_getattr.
  rewrite add_reply_log_is_no_method.
  split; [reflexivity|]. split; [simpl; set_solver|].
  split; [reflexivity|]. split; [reflexivity|].
  vm_compute. repeat split; reflexivity.
Qed.

(** ** The delivery step *)

(** [random.randint] answers within its bounds. *)
Lemma randint_in_range raw a b self :
  (a ≤ b)%Z →
  ∃ delay, randint raw a b self = (self, [], inr delay) ∧ (a ≤ delay ≤ b)%Z.
Proof.
  intros Hab. unfold randint.
  destruct (b <? a)%Z eqn:Hlt; [apply Z.ltb_lt in Hlt; lia|].
  eexists. split; [reflexivity|].
  pose proof (Z.mod_pos_bound raw (b - a + 1)). lia.
Qed.

Lemma attrs_update_today_count today self name :
  name ≠ "today_reply_count" →
  attrs (_update_today_count today self) !! name = attrs self !! name.
Proof.
  intros Hne. unfold _update_today_count.
  destruct (get_reply_stats _ _) as [stats|]; [destruct (_ =? _)|];
    simpl; by rewrite lookup_insert_ne.
Qed.

Lemma processed_update_today_count today self :
  processed_messages (_update_today_count today self) = processed_messages self.
Proof.
  unfold _update_today_count.
  destruct (get_reply_stats _ _) as [stats|]; [destruct (_ =? _)|]; done.
Qed.

(** Nothing assigns [min_delay]: not [__init__], not the configuration
    dialog. *)
Lemma init_has_no_min_delay database uid today :
  attrs (MessageManager_init database uid today) !! "min_delay" = None.
Proof.
  unfold MessageManager_init. simpl.
  rewrite attrs_update_today_count by done. simpl.
  rewrite lookup_insert_ne by done.
  unfold load_account_config. simpl.
  destruct (get_account_config database uid); simpl;
    by rewrite !lookup_insert_ne by done.
Qed.

Lemma gui_save_config_keeps_no_min_delay a b c d self :
  attrs self !! "min_delay" = None →
  attrs (gui_save_config a b c d self) !! "min_delay" = None.
Proof.
  intros H. unfold gui_save_config. simpl. by rewrite !lookup_insert_ne by done.
Qed.

(** Without the attribute the delivery step stops at its lookup, before
    the sleep and before the call of [send_message]. *)
Lemma reply_to_without_min_delay rt sess msg_id env res self :
  attrs self !! "min_delay" = None →
  final_state (reply_to rt sess msg_id env res self) = self
  ∧ trace_of (reply_to rt sess msg_id env res self) = [].
Proof.
  intros Hnone.
  unfold reply_to, mbind, M_bind, mret, M_ret, getattr, final_state, trace_of.
  destruct (attrs self !! "today_reply_count") as [today_count|]; [|done].
  destruct (attrs self !! "daily_limit") as [daily_limit|] eqn:Hlimit; [|done].
  destruct (0 <? daily_limit)%Z; simpl; rewrite ?Hlimit; simpl.
  - destruct (daily_limit <=? today_count)%Z; simpl; [done|]. by rewrite Hnone.
  - by rewrite Hnone.
Qed.

Lemma respects_reply_to_no_min_delay rt (t : event → bool) sess msg_id env res self :
  respects_at (λ s, attrs s !! "min_delay" = None) (λ _, true) t
    (reply_to rt sess msg_id env res) self.
Proof.
  intros HI _.
  destruct (reply_to_without_min_delay rt sess msg_id env res self HI) as [-> ->].
  done.
Qed.

(** With it, the step may sleep and send, but only for its own identity. *)
Lemma respects_reply_to_other rt i sess msg_id env res self :
  msg_id ≠ i →
  respects_at (λ s, i ∈ processed_messages s)
    (λ ev, negb (is_discard_of i ev)) (λ ev, negb (is_send_for i ev))
    (reply_to rt sess msg_id env res) self.
Proof.
  intros Hne. unfold reply_to, record_send_result.
  repeat first
    [ apply respects_sleep; done
    | apply respects_emit; intros _; simpl; by rewrite bool_decide_eq_false_2
    | apply respects_modify; simpl; by rewrite ?processed_update_today_count
    | respects_step ].
Qed.

(** C1 (the code at the failing input): [reply_to] reads [self.min_delay]
    and [self.max_delay], attributes that nothing assigns (the settings
    are stored as [reply_delay_min] and [reply_delay_max]).  So a step
    started without [min_delay] neither sleeps nor calls [send_message];
    a worker started on a freshly built manager never calls
    [send_message], whatever it receives; and on a fresh message that
    matches an enabled rule under the daily limit the step ends in the
    handler with [AttributeError]. *)
Theorem reply_is_never_delivered (rt : PyRuntime) :
  (∀ sess now msg env self,
     attrs self !! "min_delay" = None →
     let step := process_message rt sess now msg env self in
     no_sends (trace_of step) = true
     ∧ no_sleeps (trace_of step) = true
     ∧ attrs (final_state step) !! "min_delay" = None)
  ∧ (∀ database uid today inputs,
       no_sends (trace_of (_auto_reply_worker rt inputs
                             (set_listening (MessageManager_init database uid today))))
       = true)
  ∧ (let self := sample_manager hi_rules in
     let msg := sample_message 7 1000 "hi" in
     attrs self !! "reply_delay_min" = Some 2%Z
     ∧ attrs self !! "reply_delay_max" = Some 8%Z
     ∧ attrs self !! "daily_limit" = Some 100%Z
     ∧ attrs self !! "today_reply_count" = Some 0%Z
     ∧ match_auto_reply sample_runtime self (PStr "hi")
       = inr (Some (result_of_rule (sample_rule 1 "hi" "hello" "contains" 0 (100 # 1))))
     ∧ process_message sample_runtime sample_session 1500 msg sample_env self
       = (set_processed {["7_7_1000_99_3_49f68a5c"]} self,
          [EvCaught (AttributeError "min_delay")], inr tt)).
Proof.
  split; [|split].
  - intros sess now msg env self Hnone step.
    destruct (respects_process_message rt (λ s, attrs s !! "min_delay" = None)
                (λ _, true) (λ ev, negb (is_send ev) && negb (is_sleep ev))
                (λ _, True)) with (sess := sess) (now := now) (msg := msg)
                (env := env) (self := self) as [HI Ht]; try done.
    + intros. apply respects_reply_to_no_min_delay.
    + by apply forallb_forall.
    + fold step in HI, Ht. split; [|split; [|exact HI]].
      * unfold no_sends. rewrite forallb_forall in Ht |- *.
        intros ev Hev. by destruct (andb_prop _ _ (Ht ev Hev)).
      * unfold no_sleeps. rewrite forallb_forall in Ht |- *.
        intros ev Hev. by destruct (andb_prop _ _ (Ht ev Hev)).
  - intros database uid today inputs.
    destruct (respects_auto_reply_worker rt (λ s, attrs s !! "min_delay" = None)
                (λ _, true) (λ ev, negb (is_send ev)) (λ _, True))
      with (inputs := inputs)
           (self := set_listening (MessageManager_init database uid today))
      as [_ Ht]; try done.
    + intros. apply respects_reply_to_no_min_delay.
    + simpl. apply init_has_no_min_delay.
    + by apply forallb_forall.
  - vm_compute. repeat split; reflexivity.
Qed.

(** ** At most one answer per identity *)

(** C3: take any run of the worker loop from a state whose dedup set
    holds the identity [i].  If the run never drops [i] from the set,
    then it never calls [send_message] for a message of identity [i], and
    [i] is still in the set at the end. *)
Theorem processed_identity_is_never_answered (rt : PyRuntime)
    (inputs : list scan_input) (self : MessageManager) (i : string) :
  i ∈ processed_messages self →
  no_discard_of i (trace_of (_auto_reply_worker rt inputs self)) = true →
  no_sends_for i (trace_of (_auto_reply_worker rt inputs self)) = true
  ∧ i ∈ processed_messages (final_state (_auto_reply_worker rt inputs self)).
Proof.
  intros Hin Hkept.
  destruct (respects_auto_reply_worker rt (λ s, i ∈ processed_messages s)
              (λ ev, negb (is_discard_of i ev)) (λ ev, negb (is_send_for i ev))
              (λ msg_id, msg_id ≠ i))
    with (inputs := inputs) (self := self) as [HI Ht]; try done.
  - intros s msg_id Hs. simpl. set_solver.
  - intros s old Hs Hg. simpl in *.
    destruct (decide (i = old)) as [->|Hne].
    + by rewrite bool_decide_eq_true_2 in Hg.
    + set_solver.
  - intros s msg_id Hs Hnot ->. done.
  - intros. by apply respects_reply_to_other.
Qed.

(** A message that contains "hi" arrives and is answered during the first
    iteration; the two later iterations fetch it again (the last one next
    to a new message) and answer only the new one. *)
Lemma processed_identity_is_never_answered_witness :
  let msg := sample_message 7 1000 "hi" in
  let msg' := sample_message 7 1400 "hi again" in
  let i := "7_7_1000_99_3_49f68a5c" in
  let first := _auto_reply_worker sample_runtime [one_session 1500 [msg]]
                 (deliverable_manager hi_rules) in
  let later := _auto_reply_worker sample_runtime
                 [one_session 1510 [msg]; one_session 1520 [msg'; msg]]
                 (final_state first) in
  trace_of first
    = [ EvSleep 5; EvSend i 7 "hello" 1; EvCaught (AttributeError "add_reply_log");
        EvSleep 8 ]
  ∧ trace_of later
    = [ EvSleep 8;
        EvSleep 5; EvSend "7_7_1400_99_3_1ac27d33" 7 "hello" 1;
        EvCaught (AttributeError "add_reply_log"); EvSleep 8 ]
  ∧ no_sends_for i (trace_of later) = true
  ∧ i ∈ processed_messages (final_state later).
Proof.
  intros msg msg' i first later.
  split; [vm_compute; reflexivity|].
  split; [vm_compute; reflexivity|].
  apply (processed_identity_is_never_answered sample_runtime
           [one_session 1510 [msg]; one_session 1520 [msg'; msg]]
           (final_state first) i).
  - refine (bool_decide_unpack _ _). vm_compute. exact Logic.I.
  - vm_compute. reflexivity.
Defined.

(** ** The cap of the dedup set *)

Lemma discard_loop_spec (old_messages : list string) self :
  foldr (λ old_msg rest,
           modify_self (λ s, set_processed (processed_messages s ∖ {[old_msg]}) s) ;;
           emit (EvDiscard old_msg) ;;
           rest)
        (mret tt) old_messages self
  = (set_processed (processed_messages self ∖ list_to_set old_messages) self,
     EvDiscard <$> old_messages, inr tt).
Proof.
  revert self. induction old_messages as [|old l IH]; intros self; simpl.
  - unfold mret, M_ret. destruct self. unfold set_processed. simpl.
    by rewrite difference_empty_L.
  - unfold mbind, M_bind, modify_self, emit. rewrite IH. simpl.
    do 2 f_equal. unfold set_processed. simpl.
    by rewrite difference_difference_l_L.
Qed.

(** The insertion step, in closed form. *)
Lemma mark_processed_spec rt msg_id self :
  let added := {[msg_id]} ∪ processed_messages self in
  mark_processed rt msg_id self
  = if (1000 <? size added)%nat
    then (set_processed (added ∖ list_to_set (take 500 (set_iter rt added))) self,
          EvDiscard <$> take 500 (set_iter rt added), inr tt)
    else (set_processed added self, [], inr tt).
Proof.
  intros added. unfold mark_processed, mbind, M_bind, get_self, modify_self.
  simpl. fold added. destruct (1000 <? size added)%nat; [|done].
  rewrite discard_loop_spec. simpl. done.
Qed.

Lemma set_iter_elem_of rt (s : gset string) x : x ∈ set_iter rt s ↔ x ∈ s.
Proof. by rewrite (set_iter_perm rt s), elem_of_elements. Qed.

Lemma set_iter_NoDup rt (s : gset string) : NoDup (set_iter rt s).
Proof. rewrite (set_iter_perm rt s). apply NoDup_elements. Qed.

Lemma set_iter_length rt (s : gset string) : length (set_iter rt s) = size s.
Proof. by rewrite (set_iter_perm rt s). Qed.

(** On overflow exactly 500 members go: the first 500 of the enumeration. *)
Lemma evicted_size rt (added : gset string) :
  (1000 < size added)%nat →
  size (added ∖ list_to_set (take 500 (set_iter rt added))) = (size added - 500)%nat.
Proof.
  intros Hbig.
  rewrite size_difference.
  - rewrite size_list_to_set.
    + rewrite length_take, set_iter_length. lia.
    + eapply sublist_NoDup; [apply set_iter_NoDup|apply sublist_take].
  - intros x Hx. apply elem_of_list_to_set in Hx.
    apply (set_iter_elem_of rt). apply elem_of_take in Hx as (k & Hk & _).
    by eapply list_elem_of_lookup_2.
Qed.

Lemma mark_processed_size rt msg_id self :
  (size (processed_messages self) ≤ 1000)%nat →
  (size (processed_messages (final_state (mark_processed rt msg_id self))) ≤ 1000)%nat.
Proof.
  intros Hcap. rewrite mark_processed_spec.
  assert (size ({[msg_id]} ∪ processed_messages self) ≤ 1001)%nat as Hadd.
  { rewrite size_union_alt, size_singleton.
    assert (size (processed_messages self ∖ {[msg_id]})
            ≤ size (processed_messages self))%nat; [|lia].
    apply subseteq_size, subseteq_difference_l. done. }
  destruct (1000 <? size _)%nat eqn:Hover; simpl.
  - apply Nat.ltb_lt in Hover. rewrite evicted_size by done. lia.
  - apply Nat.ltb_ge in Hover. done.
Qed.

(** While the cap is not reached the set simply grows. *)
Lemma mark_all_no_overflow rt (msg_ids : list string) self :
  (size (list_to_set msg_ids ∪ processed_messages self) ≤ 1000)%nat →
  mark_all rt msg_ids self
  = (set_processed (list_to_set msg_ids ∪ processed_messages self) self, [], inr tt).
Proof.
  revert self. induction msg_ids as [|i l IH]; intros self Hcap; simpl in *.
  - unfold mret, M_ret. destruct self. unfold set_processed. simpl.
    by rewrite (left_id_L ∅ (∪)).
  - unfold mbind, M_bind. rewrite mark_processed_spec. simpl.
    assert (Hi : (1000 <? size ({[i]} ∪ processed_messages self))%nat = false).
    { apply Nat.ltb_ge. etrans; [|exact Hcap].
      apply subseteq_size. apply union_mono_r, union_subseteq_l. }
    rewrite Hi.
    assert (Heq : list_to_set l ∪ ({[i]} ∪ processed_messages self)
                  = ({[i]} ∪ list_to_set l) ∪ processed_messages self :> gset string).
    { rewrite (assoc_L (∪)). f_equal. apply (comm_L (∪)). }
    rewrite IH; simpl; rewrite Heq; [|done].
    done.
Qed.

Lemma mark_all_app rt (l1 l2 : list string) self :
  mark_all rt (l1 ++ l2) self = (mark_all rt l1 ;; mark_all rt l2) self.
Proof.
  revert self. induction l1 as [|i l IH]; intros self; simpl.
  - unfold mbind, M_bind, mret, M_ret. by destruct (mark_all rt l2 self) as [[? ?] ?].
  - unfold mbind, M_bind in *.
    destruct (mark_processed rt i self) as [[s1 tr1] [e|[]]]; [done|].
    rewrite IH.
    destruct (mark_all rt l s1) as [[s2 tr2] [e|[]]]; [done|].
    destruct (mark_all rt l2 s2) as [[s3 tr3] res]. by rewrite (assoc_L (++)).
Qed.

Lemma StronglySorted_strict_NoDup {A} (R : relation A) (l : list A) :
  StronglySorted (strict R) l → NoDup l.
Proof.
  induction 1 as [|x l Hl IH Hx]; constructor; [|done].
  intros Hin. rewrite Forall_forall in Hx.
  destruct (Hx x Hin) as [_ Hirr]. apply Hirr. by destruct (Hx x Hin).
Qed.

(** The sample runtime enumerates a set in ascending order. *)
Lemma sample_enumeration (asc : list string) :
  StronglySorted (strict String.le) asc →
  set_iter sample_runtime (list_to_set asc) = asc.
Proof.
  intros Hasc. simpl.
  apply (StronglySorted_unique String.le).
  - apply (StronglySorted_merge_sort String.le).
  - eapply StronglySorted_weaken; [|exact Hasc]. by intros x y [? _].
  - rewrite merge_sort_Permutation. apply elements_list_to_set.
    by eapply StronglySorted_strict_NoDup.
Qed.

(** Under the sample runtime: a run of 1000 identities and then one more
    that sorts below them all overflows at the last insertion and drops
    the first 500 of the ascending enumeration. *)
Lemma mark_all_overflow_sample (first : list string) (newest : string) self :
  processed_messages self = ∅ →
  length first = 1000%nat →
  StronglySorted (strict String.le) (newest :: rev first) →
  mark_all sample_runtime (first ++ [newest]) self
  = (set_processed (list_to_set (first ++ [newest])
                      ∖ list_to_set (take 500 (newest :: rev first))) self,
     EvDiscard <$> take 500 (newest :: rev first), inr tt).
Proof.
  intros Hempty Hlen Hasc.
  pose proof (StronglySorted_strict_NoDup _ _ Hasc) as Hnodup.
  assert (Hfirst : NoDup first).
  { apply NoDup_cons in Hnodup as [_ Hn].
    by rewrite <- (Permutation_rev first) in Hn. }
  assert (Hadded : {[newest]} ∪ list_to_set first
                   = list_to_set (newest :: rev first) :> gset string).
  { change (list_to_set (newest :: rev first))
      with ({[newest]} ∪ list_to_set (rev first) : gset string).
    f_equal. apply list_to_set_perm_L, Permutation_rev. }
  assert (Hall : list_to_set (newest :: rev first)
                 = list_to_set (first ++ [newest]) :> gset string).
  { apply list_to_set_perm_L. rewrite <- Permutation_cons_append.
    constructor. symmetry. apply Permutation_rev. }
  rewrite mark_all_app. unfold mbind at 1. unfold M_bind.
  rewrite mark_all_no_overflow.
  2:{ rewrite Hempty, (right_id_L ∅ (∪)), size_list_to_set by done. lia. }
  rewrite Hempty, (right_id_L ∅ (∪)).
  change (mark_all sample_runtime [newest])
    with (mark_processed sample_runtime newest ;; mret tt).
  unfold mbind, M_bind. rewrite mark_processed_spec.
  change (processed_messages (set_processed (list_to_set first) self))
    with (list_to_set first : gset string).
  rewrite Hadded.
  assert (Hover : (1000 <? size (list_to_set (newest :: rev first) : gset string))%nat
                  = true).
  { apply Nat.ltb_lt. rewrite size_list_to_set by done.
    rewrite length_cons, length_rev. lia. }
  rewrite Hover, (sample_enumeration _ Hasc), Hall.
  unfold mret, M_ret. by rewrite (right_id_L [] (++)).
Qed.

Lemma arrival_order_split :
  arrival_order = take 1000 arrival_order ++ [identity_at 1000].
Proof. vm_compute. reflexivity. Qed.

Lemma arrival_order_ascending :
  StronglySorted (strict String.le) (identity_at 1000 :: rev (take 1000 arrival_order)).
Proof.
  apply Sorted_StronglySorted; [apply _|].
  refine (bool_decide_unpack _ _). vm_compute. exact Logic.I.
Qed.

Lemma arrival_order_met_last :
  take 500 (identity_at 1000 :: rev (take 1000 arrival_order)) = met_last.
Proof. vm_compute. reflexivity. Qed.

(** The run of [arrival_order], in closed form: the 1001st insertion
    overflows and the 500 identities met last are dropped. *)
Lemma mark_all_arrival_order :
  mark_all sample_runtime arrival_order (sample_manager [])
  = (set_processed (list_to_set arrival_order ∖ list_to_set met_last) (sample_manager []),
     EvDiscard <$> met_last, inr tt).
Proof.
  rewrite arrival_order_split at 1.
  rewrite (mark_all_overflow_sample (take 1000 arrival_order) (identity_at 1000)).
  - by rewrite arrival_order_met_last, <- arrival_order_split.
  - reflexivity.
  - vm_compute. reflexivity.
  - apply arrival_order_ascending.
Qed.

(** C5 (the code at the failing input): an insertion step never leaves
    more than 1000 identities in the dedup set, and on overflow it drops
    exactly 500 of them, but which ones is decided by the order in which
    Python enumerates the set, not by age.  Under the sample runtime, when
    1001 messages are met from the one sent at 2000 down to the one sent
    at 1000, the overflow drops the 500 identities met last, the one just
    inserted among them, and keeps the 501 met first. *)
Theorem dedup_eviction_is_not_by_age (rt : PyRuntime) (msg_id : string)
    (self : MessageManager) :
  let added := {[msg_id]} ∪ processed_messages self in
  let after := mark_processed rt msg_id self in
  ((size (processed_messages self) ≤ 1000)%nat →
   (size (processed_messages (final_state after)) ≤ 1000)%nat)
  ∧ ((1000 < size added)%nat →
     processed_messages (final_state after)
       = added ∖ list_to_set (take 500 (set_iter rt added))
     ∧ size (processed_messages (final_state after)) = (size added - 500)%nat
     ∧ trace_of after = EvDiscard <$> take 500 (set_iter rt added))
  ∧ (let run := mark_all sample_runtime arrival_order (sample_manager []) in
     length arrival_order = 1001%nat
     ∧ head arrival_order = Some "7_7_2000_99_3_5d41402a"
     ∧ last arrival_order = Some "7_7_1000_99_3_5d41402a"
     ∧ head met_last = Some "7_7_1000_99_3_5d41402a"
     ∧ last met_last = Some "7_7_1499_99_3_5d41402a"
     ∧ trace_of run = EvDiscard <$> met_last
     ∧ "7_7_2000_99_3_5d41402a" ∈ processed_messages (final_state run)
     ∧ ("7_7_1000_99_3_5d41402a" ∉ processed_messages (final_state run))
     ∧ size (processed_messages (final_state run)) = 501%nat).
Proof.
  intros added after. split; [apply mark_processed_size|]. split.
  - intros Hover. unfold after. rewrite mark_processed_spec. fold added.
    apply Nat.ltb_lt in Hover as Hb. rewrite Hb. simpl.
    split; [done|]. split; [|done]. by apply evicted_size.
  - intros run. unfold run. rewrite mark_all_arrival_order.
    unfold final_state, trace_of. cbn [fst snd].
    change (processed_messages (set_processed ?p ?s)) with p.
    assert (Hnew : "7_7_1000_99_3_5d41402a" ∈ met_last).
    { refine (bool_decide_unpack _ _). vm_compute. exact Logic.I. }
    assert (Hold : "7_7_2000_99_3_5d41402a" ∈ arrival_order).
    { refine (bool_decide_unpack _ _). vm_compute. exact Logic.I. }
    assert (Hkept : "7_7_2000_99_3_5d41402a" ∉ met_last).
    { refine (bool_decide_unpack _ _). vm_compute. exact Logic.I. }
    pose proof (StronglySorted_strict_NoDup _ _ arrival_order_ascending) as Hasc.
    assert (Hperm : (identity_at 1000 :: rev (take 1000 arrival_order)) ≡ₚ arrival_order).
    { rewrite arrival_order_split at 2. rewrite <- Permutation_cons_append.
      constructor. symmetry. apply Permutation_rev. }
    assert (Hnodup : NoDup arrival_order) by (by rewrite <- Hperm).
    assert (Hlast : NoDup met_last).
    { rewrite <- arrival_order_met_last.
      eapply sublist_NoDup; [exact Hasc|apply sublist_take]. }
    assert (Hsub : (list_to_set met_last : gset string) ⊆ list_to_set arrival_order).
    { intros x Hx. apply elem_of_list_to_set in Hx. apply elem_of_list_to_set.
      rewrite <- Hperm. rewrite <- arrival_order_met_last in Hx.
      apply elem_of_take in Hx as (k & Hk & _). by eapply list_elem_of_lookup_2. }
    do 5 (split; [vm_compute; reflexivity|]).
    split; [reflexivity|]. split; [|split].
    + apply elem_of_difference. by rewrite !elem_of_list_to_set.
    + rewrite elem_of_difference, !elem_of_list_to_set. tauto.
    + rewrite size_difference by done.
      rewrite !size_list_to_set by done. vm_compute. reflexivity.
Qed.

(* ================================================================== *)
(** * Part III: the rule store, the settings, the logs, the loop *)
(* ================================================================== *)

(** ** More on the stable sort *)

Lemma insert_sorted_map {A} (leb : A → A → bool) (f : A → A) x l :
  (∀ a b, leb (f a) (f b) = leb a b) →
  insert_sorted leb (f x) (map f l) = map f (insert_sorted leb x l).
Proof.
  intros Hf. induction l as [|y l IH]; simpl; [done|].
  rewrite Hf. destruct (leb x y); simpl; [done|]. by rewrite IH.
Qed.

Lemma stable_sort_map {A} (leb : A → A → bool) (f : A → A) l :
  (∀ a b, leb (f a) (f b) = leb a b) →
  stable_sort leb (map f l) = map f (stable_sort leb l).
Proof.
  intros Hf. induction l as [|x l IH]; simpl; [done|].
  by rewrite IH, insert_sorted_map.
Qed.

(** A row that goes before all others ends up first. *)
Lemma stable_sort_snoc_first {A} (leb : A → A → bool) x l :
  Forall (λ y, leb y x = false) l →
  stable_sort leb (l ++ [x]) = x :: stable_sort leb l.
Proof.
  induction 1 as [|y l Hy Hl IH]; simpl; [done|].
  rewrite IH. simpl. by rewrite Hy.
Qed.

Lemma filter_map_commute {A} (p : A → bool) (f : A → A) l :
  (∀ a, p (f a) = p a) →
  List.filter p (map f l) = map f (List.filter p l).
Proof.
  intros Hf. induction l as [|x l IH]; simpl; [done|].
  rewrite Hf. destruct (p x); simpl; by rewrite IH.
Qed.

Lemma filter_map_untouched {A} (p : A → bool) (f : A → A) l :
  (∀ a, p (f a) = p a) → (∀ a, p a = true → f a = a) →
  List.filter p (map f l) = List.filter p l.
Proof.
  intros Hp Hf. rewrite filter_map_commute by done.
  induction l as [|x l IH]; simpl; [done|].
  destruct (p x) eqn:Hx; simpl; [|done]. by rewrite IH, Hf.
Qed.

Lemma filter_filter_untouched {A} (p q : A → bool) l :
  (∀ a, p a = true → q a = true) →
  List.filter p (List.filter q l) = List.filter p l.
Proof.
  intros Hpq. induction l as [|x l IH]; simpl; [done|].
  destruct (q x) eqn:Hq; simpl.
  - by rewrite IH.
  - destruct (p x) eqn:Hp; [|done]. rewrite (Hpq x Hp) in Hq. done.
Qed.

Lemma set_rules_table_same database :
  set_rules_table (rules_table database) database = database.
Proof. by destruct database. Qed.

Lemma map_untouched {A} (f : A → A) l :
  Forall (λ a, f a = a) l → map f l = l.
Proof. induction 1 as [|x l Hx Hl IH]; simpl; [done|]. by rewrite Hx, IH. Qed.

(** ** The rule store *)

Lemma rule_is_spec uid id r :
  rule_is uid id r = true ↔ r_id r = id ∧ r_account_uid r = uid.
Proof.
  unfold rule_is. by rewrite andb_true_iff, Z.eqb_eq, String.eqb_eq.
Qed.

Lemma rule_selected_other uid uid' id enabled_only r :
  uid ≠ uid' → rule_is uid' id r = true → rule_selected uid enabled_only r = false.
Proof.
  intros Hne [_ Hacc]%rule_is_spec. unfold rule_selected.
  apply andb_false_iff. left. apply String.eqb_neq. congruence.
Qed.

(** The matcher sees the database through the query only. *)
Lemma match_auto_reply_same_rules rt self self' message_text :
  get_auto_reply_rules (db self') (account_uid self') true
  = get_auto_reply_rules (db self) (account_uid self) true →
  match_auto_reply rt self' message_text = match_auto_reply rt self message_text.
Proof.
  intros Heq. unfold match_auto_reply, match_auto_reply_body. by rewrite Heq.
Qed.

(** A record handed back by the matcher comes from an enabled rule of the
    account that matches. *)
Lemma match_auto_reply_Some rt self message_text m :
  match_auto_reply rt self message_text = inr (Some m) →
  ∃ text r, message_text = PStr text
            ∧ r ∈ get_auto_reply_rules (db self) (account_uid self) true
            ∧ m = result_of_rule r
            ∧ rule_matches rt text r = true.
Proof.
  destruct message_text as [n|text|].
  - unfold match_auto_reply, match_auto_reply_body. by destruct (n =? 0)%Z.
  - destruct (blank text) eqn:Hb.
    { by rewrite match_auto_reply_blank. }
    rewrite match_auto_reply_nonblank, match_rules_find by done.
    destruct (List.find _ _) as [r|] eqn:Hf; simpl; [|done].
    intros [= <-]. apply find_some in Hf as [Hin Hm].
    exists text, r. by rewrite list_elem_of_In.
  - done.
Qed.

Lemma get_auto_reply_rules_set_rules database rules uid enabled_only :
  List.filter (rule_selected uid enabled_only) rules
  = List.filter (rule_selected uid enabled_only) (rules_table database) →
  get_auto_reply_rules (set_rules_table rules database) uid enabled_only
  = get_auto_reply_rules database uid enabled_only.
Proof. intros Heq. unfold get_auto_reply_rules. simpl. by rewrite Heq. Qed.

Lemma rule_is_update_rule_row uid id kw rc mt cs en pr desc now r :
  rule_is uid id (update_rule_row kw rc mt cs en pr desc now r) = rule_is uid id r.
Proof. done. Qed.

Lemma save_other_account database uid other kw rc mt cs en pr desc rule_id now rowid eo :
  other ≠ uid →
  get_auto_reply_rules
    (save_auto_reply_rule database other kw rc mt cs en pr desc rule_id now rowid).1
    uid eo
  = get_auto_reply_rules database uid eo.
Proof.
  intros Hne. unfold save_auto_reply_rule.
  assert (Hins : ∀ row, r_account_uid row = other →
            get_auto_reply_rules (set_rules_table (rules_table database ++ [row]) database)
              uid eo = get_auto_reply_rules database uid eo).
  { intros row Hrow. apply get_auto_reply_rules_set_rules.
    rewrite List.filter_app. simpl. unfold rule_selected at 2.
    rewrite Hrow. apply String.eqb_neq in Hne. rewrite Hne. simpl.
    by rewrite (right_id_L [] (++)). }
  destruct (db_ok database); [|done].
  destruct rule_id as [id|];
    [|destruct (in_int64 pr); simpl; [by apply Hins|done]].
  destruct (id =? 0)%Z; [destruct (in_int64 pr); simpl; [by apply Hins|done]|].
  destruct (in_int64 pr && in_int64 id); simpl; [|done].
  apply get_auto_reply_rules_set_rules, filter_map_untouched.
  - intros r. destruct (rule_is other id r) eqn:Hr; [|done].
    apply rule_is_spec in Hr as [_ Hacc]. unfold rule_selected. simpl.
    rewrite Hacc. apply String.eqb_neq in Hne. by rewrite Hne.
  - intros r Hsel. destruct (rule_is other id r) eqn:Hr; [|done].
    by rewrite (rule_selected_other uid other id eo r) in Hsel.
Qed.

Lemma delete_other_account database uid other id eo :
  other ≠ uid →
  get_auto_reply_rules (delete_auto_reply_rule database other id).1 uid eo
  = get_auto_reply_rules database uid eo.
Proof.
  intros Hne. unfold delete_auto_reply_rule.
  destruct (db_ok database); [|done]. simpl.
  apply get_auto_reply_rules_set_rules, filter_filter_untouched.
  intros r Hsel. destruct (rule_is other id r) eqn:Hr; [|done].
  by rewrite (rule_selected_other uid other id eo r) in Hsel.
Qed.

Lemma toggle_other_account database uid other id now eo :
  other ≠ uid →
  get_auto_reply_rules (toggle_rule_status database other id now).1 uid eo
  = get_auto_reply_rules database uid eo.
Proof.
  intros Hne. unfold toggle_rule_status.
  destruct (db_ok database); [|done]. simpl.
  apply get_auto_reply_rules_set_rules, filter_map_untouched.
  - intros r. destruct (rule_is other id r) eqn:Hr; [|done].
    apply rule_is_spec in Hr as [_ Hacc]. unfold rule_selected. simpl.
    rewrite Hacc. apply String.eqb_neq in Hne. by rewrite Hne.
  - intros r Hsel. destruct (rule_is other id r) eqn:Hr; [|done].
    by rewrite (rule_selected_other uid other id eo r) in Hsel.
Qed.

(** X1: saving, deleting or toggling a rule of one account changes
    neither the rules listed for another account nor what the matcher of
    that other account answers. *)
Theorem rule_changes_stay_in_their_account (rt : PyRuntime) (self : MessageManager)
    (other keyword reply_content match_type : string) (case_sensitive enabled : bool)
    (priority : Z) (description : string) (rule_id : option Z) (id : Z)
    (now : Q) (rowid : Z) (enabled_only : bool) (message_text : pyval) :
  other ≠ account_uid self →
  Forall (λ database,
            get_auto_reply_rules database (account_uid self) enabled_only
            = get_auto_reply_rules (db self) (account_uid self) enabled_only
            ∧ match_auto_reply rt (set_db database self) message_text
              = match_auto_reply rt self message_text)
    [ (save_auto_reply_rule (db self) other keyword reply_content match_type
         case_sensitive enabled priority description rule_id now rowid).1;
      (delete_auto_reply_rule (db self) other id).1;
      (toggle_rule_status (db self) other id now).1 ].
Proof.
  intros Hne.
  repeat constructor;
    try (apply match_auto_reply_same_rules; simpl);
    first [ by apply save_other_account
          | by apply delete_other_account
          | by apply toggle_other_account ].
Qed.

(** Account 43 adds a rule that would match "hi" with priority 99; the
    matcher of account 42 still answers with its own rule. *)
Lemma rule_changes_stay_in_their_account_witness :
  let self := sample_manager hi_rules in
  let database := (save_auto_reply_rule (db self) "43" "hi" "other" "contains"
                     false true 99 "" None 300 2).1 in
  length (rules_table database) = 2%nat
  ∧ match_auto_reply sample_runtime (set_db database self) (PStr "hi")
    = match_auto_reply sample_runtime self (PStr "hi").
Proof.
  intros self database. split; [reflexivity|].
  pose proof (rule_changes_stay_in_their_account sample_runtime self "43" "hi"
                "other" "contains" false true 99 "" None 0 300 2 true (PStr "hi")
                ltac:(discriminate)) as H.
  apply Forall_cons in H as [[_ H] _]. exact H.
Defined.

(** X2: a rule saved without an id, with a priority that fits SQLite's
    64-bit integers, gets the row id SQLite hands out, and is listed from
    then on next to the rules that were there: among all rules of the
    account always, among the enabled ones when it is enabled.  A
    priority that does not fit is refused: the save answers 0 and the
    table is as it was. *)
Theorem saved_rule_is_listed (database : AutoReplyDatabase)
    (uid keyword reply_content match_type : string) (case_sensitive enabled : bool)
    (priority : Z) (description : string) (now : Q) (rowid : Z) :
  db_ok database = true →
  let new_row := {| r_account_uid := uid; r_id := rowid; r_keyword := keyword;
                    r_reply_content := reply_content; r_match_type := match_type;
                    r_case_sensitive := case_sensitive; r_enabled := enabled;
                    r_priority := priority; r_description := description;
                    r_created_time := now; r_updated_time := now |} in
  let saved := save_auto_reply_rule database uid keyword reply_content match_type
                 case_sensitive enabled priority description None now rowid in
  if in_int64 priority
  then saved.2 = rowid
       ∧ get_auto_reply_rules saved.1 uid false
         ≡ₚ new_row :: get_auto_reply_rules database uid false
       ∧ get_auto_reply_rules saved.1 uid true
         ≡ₚ (if enabled then [new_row] else [])
            ++ get_auto_reply_rules database uid true
  else saved = (database, 0%Z).
Proof.
  intros Hok new_row saved. unfold saved, save_auto_reply_rule. rewrite Hok.
  destruct (in_int64 priority); simpl; [|done].
  split; [done|].
  rewrite !get_auto_reply_rules_perm by done. simpl.
  rewrite !List.filter_app.
  assert (Hsel : ∀ eo, List.filter (rule_selected uid eo) [new_row]
                       = if negb eo || enabled then [new_row] else []).
  { intros eo. simpl. unfold rule_selected. simpl. by rewrite String.eqb_refl. }
  fold new_row. rewrite !Hsel. simpl.
  split.
  - by rewrite <- Permutation_cons_append.
  - destruct enabled; simpl.
    + by rewrite <- Permutation_cons_append.
    + by rewrite (right_id_L [] (++)).
Qed.

Lemma saved_rule_is_listed_witness :
  let saved := save_auto_reply_rule (sample_db hi_rules) "42" "bye" "see you"
                 "exact" false false 3 "" None 300 2 in
  saved.2 = 2%Z
  ∧ length (get_auto_reply_rules saved.1 "42" false) = 2%nat
  ∧ length (get_auto_reply_rules saved.1 "42" true) = 1%nat.
Proof.
  intros saved.
  pose proof (saved_rule_is_listed (sample_db hi_rules) "42" "bye" "see you" "exact"
                false false 3 "" 300 2 eq_refl) as (Hid & Hall & Hen).
  split; [exact Hid|]. fold saved in Hall, Hen.
  split; [by rewrite Hall|by rewrite Hen].
Defined.

Lemma filter_all {A} (p : A → bool) l :
  Forall (λ a, p a = true) l → List.filter p l = l.
Proof. induction 1 as [|x l Hx Hl IH]; simpl; [done|]. by rewrite Hx, IH. Qed.

Lemma existsb_none {A} (p : A → bool) l :
  Forall (λ a, p a = false) l → existsb p l = false.
Proof. induction 1 as [|x l Hx Hl IH]; simpl; [done|]. by rewrite Hx, IH. Qed.

Lemma set_db_same self : set_db (db self) self = self.
Proof. by destruct self. Qed.

Lemma delete_absent self rule_id :
  db_ok (db self) = true →
  Forall (λ r, rule_is (account_uid self) rule_id r = false) (rules_table (db self)) →
  MessageManager_delete_auto_reply_rule self rule_id = (self, false).
Proof.
  intros Hok Hall.
  unfold MessageManager_delete_auto_reply_rule, delete_auto_reply_rule.
  rewrite Hok. simpl. rewrite filter_all.
  - by rewrite set_rules_table_same, set_db_same, existsb_none.
  - eapply Forall_impl; [exact Hall|]. simpl. by intros r ->.
Qed.

(** X3: for a priority and an id that fit SQLite's 64-bit integers,
    [update_auto_reply_rule] answers [True] for a positive id that no
    rule of the account carries, and leaves everything as it was; called
    with the id 0 it inserts a new rule, exactly as [add_auto_reply_rule]
    does.  A priority that does not fit is refused: the answer is [False]
    and nothing changes. *)
Theorem update_of_missing_rule_reports_success (self : MessageManager)
    (rule_id : Z) (keyword reply_content match_type : string)
    (case_sensitive enabled : bool) (priority : Z) (description : string)
    (now : Q) (rowid : Z) :
  db_ok (db self) = true →
  (in_int64 priority = true → in_int64 rule_id = true → (0 < rule_id)%Z →
   Forall (λ r, rule_is (account_uid self) rule_id r = false) (rules_table (db self)) →
   update_auto_reply_rule self rule_id keyword reply_content match_type
     case_sensitive enabled priority description now rowid = (self, true))
  ∧ (in_int64 priority = true → (0 < rowid)%Z →
     update_auto_reply_rule self 0 keyword reply_content match_type
       case_sensitive enabled priority description now rowid
     = ((add_auto_reply_rule self keyword reply_content match_type
           case_sensitive enabled priority description now rowid).1, true))
  ∧ (in_int64 priority = false →
     update_auto_reply_rule self rule_id keyword reply_content match_type
       case_sensitive enabled priority description now rowid = (self, false)).
Proof.
  intros Hok. split; [|split].
  - intros Hprio Hid Hpos Hnone. unfold update_auto_reply_rule, save_auto_reply_rule.
    rewrite Hok, Hprio, Hid. destruct (rule_id =? 0)%Z eqn:Hz; [lia|]. simpl.
    rewrite map_untouched.
    + rewrite set_rules_table_same, set_db_same. f_equal. by apply Z.ltb_lt.
    + eapply Forall_impl; [exact Hnone|]. simpl. by intros r ->.
  - intros Hprio Hpos. unfold update_auto_reply_rule, add_auto_reply_rule,
      save_auto_reply_rule. rewrite Hok, Hprio. simpl. f_equal. by apply Z.ltb_lt.
  - intros Hprio. unfold update_auto_reply_rule, save_auto_reply_rule.
    rewrite Hok, Hprio. destruct (rule_id =? 0)%Z; simpl; by rewrite set_db_same.
Qed.

(** The sample account has the one rule 1; updating rule 7 succeeds and
    changes nothing. *)
Lemma update_of_missing_rule_reports_success_witness :
  let self := sample_manager hi_rules in
  update_auto_reply_rule self 7 "bye" "see you" "exact" false true 3 "" 300 2
  = (self, true).
Proof.
  intros self.
  apply (update_of_missing_rule_reports_success self 7 "bye" "see you" "exact"
           false true 3 "" 300 2 eq_refl); [reflexivity|reflexivity|lia|].
  repeat constructor.
Defined.

(** X4: [delete_auto_reply_rule] answers whether a rule of the account
    carried the id; afterwards no such rule is left while all other rules
    are, the matcher never answers with that id again, and a second
    delete answers [False] and changes nothing. *)
Theorem deleted_rule_is_gone (rt : PyRuntime) (self : MessageManager) (rule_id : Z) :
  db_ok (db self) = true →
  let deleted := MessageManager_delete_auto_reply_rule self rule_id in
  (deleted.2 = true
   ↔ ∃ r, r ∈ rules_table (db self)
          ∧ r_id r = rule_id ∧ r_account_uid r = account_uid self)
  ∧ (∀ r, r ∈ rules_table (db deleted.1)
          ↔ r ∈ rules_table (db self)
            ∧ ¬ (r_id r = rule_id ∧ r_account_uid r = account_uid self))
  ∧ (∀ message_text m,
       match_auto_reply rt deleted.1 message_text = inr (Some m) →
       m_rule_id m ≠ rule_id)
  ∧ MessageManager_delete_auto_reply_rule deleted.1 rule_id = (deleted.1, false).
Proof.
  intros Hok deleted.
  assert (Hrows : ∀ r, r ∈ rules_table (db deleted.1)
            ↔ r ∈ rules_table (db self)
              ∧ ¬ (r_id r = rule_id ∧ r_account_uid r = account_uid self)).
  { intros r. unfold deleted, MessageManager_delete_auto_reply_rule,
      delete_auto_reply_rule. rewrite Hok. simpl.
    rewrite !list_elem_of_In, filter_In, negb_true_iff.
    rewrite <- rule_is_spec. destruct (rule_is _ _ r); intuition congruence. }
  split; [|split; [exact Hrows|split]].
  - unfold deleted, MessageManager_delete_auto_reply_rule, delete_auto_reply_rule.
    rewrite Hok. simpl. rewrite existsb_exists.
    split; intros (r & Hin & Hr); exists r.
    + apply rule_is_spec in Hr. by rewrite list_elem_of_In.
    + rewrite <- list_elem_of_In. split; [done|]. by apply rule_is_spec.
  - intros message_text m Hm.
    apply match_auto_reply_Some in Hm as (text & r & _ & Hin & -> & _).
    apply get_auto_reply_rules_enabled in Hin as (_ & Hacc & Hin).
    apply Hrows in Hin as [_ Hnot]. simpl. intros Hid. apply Hnot.
    split; [done|]. exact Hacc.
  - apply delete_absent.
    + unfold deleted, MessageManager_delete_auto_reply_rule, delete_auto_reply_rule.
      by rewrite Hok.
    + apply Forall_forall. intros r [_ Hnot]%Hrows.
      destruct (rule_is _ _ r) eqn:Hr; [|done].
      apply rule_is_spec in Hr. exfalso. apply Hnot. exact Hr.
Qed.

Lemma deleted_rule_is_gone_witness :
  let self := sample_manager hi_rules in
  let deleted := MessageManager_delete_auto_reply_rule self 1 in
  match_auto_reply sample_runtime self (PStr "hi")
    = inr (Some (result_of_rule (sample_rule 1 "hi" "hello" "contains" 0 (100 # 1))))
  ∧ deleted.2 = true
  ∧ match_auto_reply sample_runtime deleted.1 (PStr "hi") = inr None
  ∧ MessageManager_delete_auto_reply_rule deleted.1 1 = (deleted.1, false).
Proof.
  intros self deleted.
  split; [vm_compute; reflexivity|].
  split; [reflexivity|].
  split; [vm_compute; reflexivity|].
  apply (deleted_rule_is_gone sample_runtime self 1 eq_refl).
Defined.

(** The matcher reads six fields of a rule. *)
Lemma match_rules_map rt (h : rule → rule) rules text :
  (∀ r, r_keyword (h r) = r_keyword r ∧ r_match_type (h r) = r_match_type r
        ∧ r_case_sensitive (h r) = r_case_sensitive r
        ∧ r_reply_content (h r) = r_reply_content r
        ∧ r_id (h r) = r_id r ∧ r_priority (h r) = r_priority r) →
  match_rules rt (map h rules) text = match_rules rt rules text.
Proof.
  intros Hh. induction rules as [|r l IH]; simpl; [done|].
  destruct (Hh r) as (Hk & Hm & Hc & Hr & Hi & Hp).
  assert (Heval : ∀ kw, eval_rule rt kw (h r) text = eval_rule rt kw r text).
  { intros kw. unfold eval_rule. by rewrite Hm, Hc. }
  assert (Hres : result_of_rule (h r) = result_of_rule r).
  { unfold result_of_rule. by rewrite Hk, Hm, Hr, Hi, Hp. }
  by rewrite Hk, Heval, Hres, IH.
Qed.

(** X5: toggling a rule twice gives the matcher back exactly as it was;
    toggling once a rule that was enabled takes it out of the matcher's
    answers. *)
Theorem toggle_twice_restores_the_matcher (rt : PyRuntime) (self : MessageManager)
    (rule_id : Z) (t1 t2 : Q) (message_text : pyval) :
  let once := (MessageManager_toggle_rule_status self rule_id t1).1 in
  let twice := (MessageManager_toggle_rule_status once rule_id t2).1 in
  match_auto_reply rt twice message_text = match_auto_reply rt self message_text
  ∧ (Forall (λ r, rule_is (account_uid self) rule_id r = true → r_enabled r = true)
       (rules_table (db self)) →
     ∀ m, match_auto_reply rt once message_text = inr (Some m) →
          m_rule_id m ≠ rule_id).
Proof.
  intros once twice.
  unfold twice, once, MessageManager_toggle_rule_status, toggle_rule_status.
  destruct (db_ok (db self)) eqn:Hok; simpl; rewrite ?Hok; simpl.
  2:{ split.
      - apply match_auto_reply_same_rules. simpl. done.
      - intros _ m Hm. apply match_auto_reply_Some in Hm as (text & r & _ & Hin & _).
        simpl in Hin. unfold get_auto_reply_rules in Hin. rewrite Hok in Hin.
        by apply elem_of_nil in Hin. }
  set (uid := account_uid self).
  set (g := λ t r, if rule_is uid rule_id r
                   then update_rule_row (r_keyword r) (r_reply_content r)
                          (r_match_type r) (r_case_sensitive r)
                          (negb (r_enabled r)) (r_priority r) (r_description r) t r
                   else r).
  split.
  - destruct message_text as [n|text|]; [done| |done].
    destruct (blank text) eqn:Hb.
    { by rewrite !match_auto_reply_blank. }
    rewrite !match_auto_reply_nonblank by done. simpl. f_equal.
    unfold get_auto_reply_rules. simpl. rewrite Hok.
    rewrite map_map.
    assert (Hfields : ∀ r, let r' := g t2 (g t1 r) in
              r_keyword r' = r_keyword r ∧ r_match_type r' = r_match_type r
              ∧ r_case_sensitive r' = r_case_sensitive r
              ∧ r_reply_content r' = r_reply_content r
              ∧ r_id r' = r_id r ∧ r_priority r' = r_priority r
              ∧ r_enabled r' = r_enabled r ∧ r_account_uid r' = r_account_uid r
              ∧ r_created_time r' = r_created_time r).
    { intros r. unfold g. destruct (rule_is uid rule_id r) eqn:Hr.
      - rewrite rule_is_update_rule_row, Hr. simpl.
        by rewrite negb_involutive.
      - by rewrite Hr. }
    match goal with
    | |- context [map ?f (rules_table (db self))] =>
        change f with (λ r, g t2 (g t1 r))
    end.
    rewrite (filter_map_commute _ (λ r, g t2 (g t1 r))).
    2:{ intros r. destruct (Hfields r) as (_ & _ & _ & _ & _ & _ & He & Ha & _).
        unfold rule_selected. cbv beta. by rewrite He, Ha. }
    rewrite (stable_sort_map _ (λ r, g t2 (g t1 r))).
    2:{ intros a b.
        destruct (Hfields a) as (_ & _ & _ & _ & _ & Hpa & _ & _ & Hca).
        destruct (Hfields b) as (_ & _ & _ & _ & _ & Hpb & _ & _ & Hcb).
        unfold sql_rule_order. cbv beta. by rewrite Hpa, Hpb, Hca, Hcb. }
    apply (match_rules_map rt (λ r, g t2 (g t1 r))). intros r.
    destruct (Hfields r) as (? & ? & ? & ? & ? & ? & _). done.
  - intros Hen m Hm.
    apply match_auto_reply_Some in Hm as (text & r & _ & Hin & -> & _).
    apply get_auto_reply_rules_enabled in Hin as (Hr_en & Hacc & Hin).
    simpl in Hin, Hacc. apply list_elem_of_In, in_map_iff in Hin as (r0 & Hr0 & Hin0).
    rewrite Forall_forall in Hen. apply list_elem_of_In in Hin0.
    specialize (Hen r0 Hin0). fold uid in Hen.
    destruct (rule_is uid rule_id r0) eqn:Hrule.
    + subst r. simpl in Hr_en. rewrite (Hen eq_refl) in Hr_en. done.
    + subst r. simpl. intros Hid.
      assert (rule_is uid rule_id r0 = true); [|congruence].
      apply rule_is_spec. done.
Qed.

(** X6: a new enabled rule whose priority fits SQLite's 64-bit integers
    and is above that of every rule in the table answers every text it
    matches. *)
Theorem new_top_priority_rule_takes_over (rt : PyRuntime) (self : MessageManager)
    (keyword reply_content match_type : string) (case_sensitive : bool)
    (priority : Z) (description : string) (now : Q) (rowid : Z) (text : string) :
  let new_row := {| r_account_uid := account_uid self; r_id := rowid;
                    r_keyword := keyword; r_reply_content := reply_content;
                    r_match_type := match_type; r_case_sensitive := case_sensitive;
                    r_enabled := true; r_priority := priority;
                    r_description := description;
                    r_created_time := now; r_updated_time := now |} in
  db_ok (db self) = true →
  in_int64 priority = true →
  blank text = false →
  rule_matches rt text new_row = true →
  Forall (λ r, (r_priority r < priority)%Z) (rules_table (db self)) →
  match_auto_reply rt
    (add_auto_reply_rule self keyword reply_content match_type case_sensitive
       true priority description now rowid).1 (PStr text)
  = inr (Some (result_of_rule new_row)).
Proof.
  intros new_row Hok Hfits Hb Hmatch Hprio.
  rewrite match_auto_reply_nonblank by done. f_equal.
  unfold add_auto_reply_rule, save_auto_reply_rule. rewrite Hok, Hfits. simpl.
  unfold get_auto_reply_rules. simpl. rewrite Hok.
  rewrite List.filter_app.
  assert (Hsel : List.filter (rule_selected (account_uid self) true) [new_row]
                 = [new_row]).
  { simpl. unfold rule_selected. simpl. by rewrite String.eqb_refl. }
  fold new_row. rewrite Hsel.
  rewrite stable_sort_snoc_first.
  - rewrite match_rules_find. simpl. by rewrite Hmatch.
  - apply Forall_forall. intros r Hr.
    apply list_elem_of_In, filter_In in Hr as [Hr _]. apply list_elem_of_In in Hr.
    rewrite Forall_forall in Hprio. specialize (Hprio r Hr).
    unfold sql_rule_order. simpl.
    apply orb_false_iff. split; [apply Z.ltb_ge; lia|].
    apply andb_false_iff. left. apply Z.eqb_neq. lia.
Qed.

(** Next to the rule "hi" of priority 0, a rule "h" of priority 5 is
    added: "hi" is now answered by the new rule. *)
Lemma new_top_priority_rule_takes_over_witness :
  let self := sample_manager hi_rules in
  match_auto_reply sample_runtime self (PStr "hi")
    = inr (Some (result_of_rule (sample_rule 1 "hi" "hello" "contains" 0 (100 # 1))))
  ∧ match_auto_reply sample_runtime
      (add_auto_reply_rule self "h" "new" "startswith" false true 5 "" 300 2).1
      (PStr "hi")
    = inr (Some {| m_keyword := "h"; m_keyword_matched := "h";
                   m_reply_content := "new"; m_match_type := "startswith";
                   m_rule_id := 2; m_priority := 5 |}).
Proof.
  intros self. split; [vm_compute; reflexivity|].
  rewrite (new_top_priority_rule_takes_over sample_runtime self "h" "new"
             "startswith" false 5 "" 300 2 "hi"); try reflexivity.
  repeat constructor.
Defined.

(** ** The settings *)

(** X7: what [save_account_config] writes, [get_account_config] reads
    back for the same account, provided the four integers fit SQLite's
    64-bit integers; the settings of every other account stay as they
    were; and on a database failure, or when one of the integers does not
    fit, the save answers [False] and writes nothing. *)
Theorem saved_config_is_read_back (database : AutoReplyDatabase) (uid other : string)
    (enabled : bool) (delay_min delay_max daily_limit scan_interval : Z) (now : Q) :
  let saved := save_account_config database uid enabled delay_min delay_max
                 daily_limit scan_interval now in
  let fits := in_int64 delay_min && in_int64 delay_max
              && in_int64 daily_limit && in_int64 scan_interval in
  (db_ok database = true → fits = true →
   saved.2 = true
   ∧ get_account_config saved.1 uid
     = Some {| c_auto_reply_enabled := enabled; c_reply_delay_min := delay_min;
               c_reply_delay_max := delay_max; c_daily_limit := daily_limit;
               c_scan_interval := Some scan_interval; c_updated_time := now |}
   ∧ (other ≠ uid → get_account_config saved.1 other = get_account_config database other))
  ∧ (db_ok database = false ∨ fits = false → saved = (database, false)).
Proof.
  intros saved fits. unfold saved, fits, save_account_config, get_account_config.
  destruct (db_ok database) eqn:Hok, (in_int64 delay_min), (in_int64 delay_max),
    (in_int64 daily_limit), (in_int64 scan_interval); simpl;
    (split; [intros ? ?; try done|intros [?|?]; try done]).
  rewrite Hok. split; [done|]. split; [apply lookup_insert_eq|].
  intros Hne. by apply lookup_insert_ne.
Qed.

Lemma attrs_init_setting database uid today name :
  name ≠ "today_reply_count" →
  attrs (MessageManager_init database uid today) !! name
  = attrs (load_account_config
             {| account_uid := uid; attrs := ∅; auto_reply_enabled := false;
                stop_listening := false; processed_messages := ∅;
                replied_messages := ∅; db := database |}) !! name.
Proof.
  intros Hne. unfold MessageManager_init. simpl.
  rewrite attrs_update_today_count by done. simpl.
  by rewrite lookup_insert_ne.
Qed.

Lemma init_flags database uid today :
  auto_reply_enabled (MessageManager_init database uid today) = false
  ∧ stop_listening (MessageManager_init database uid today) = false.
Proof.
  unfold MessageManager_init, _update_today_count, load_account_config. simpl.
  destruct (get_account_config database uid); simpl;
    (destruct (get_reply_stats database uid) as [st|];
     [destruct (last_update_date st =? today)|]); done.
Qed.

(** X8: four settings that fit SQLite's 64-bit integers, saved from the
    settings dialog, are the ones a manager built afterwards on the same
    database starts with; building a manager never switches listening on,
    whatever was saved. *)
Theorem saved_settings_survive_a_restart (self : MessageManager)
    (delay_min delay_max daily_limit scan_interval : Z) (now : Q) (today : string) :
  db_ok (db self) = true →
  in_int64 delay_min && in_int64 delay_max
    && in_int64 daily_limit && in_int64 scan_interval = true →
  let saving := MessageWindow_save_config delay_min delay_max daily_limit
                  scan_interval now self in
  let restarted := MessageManager_init (db (final_state saving)) (account_uid self)
                     today in
  outcome saving = inr tt
  ∧ attrs restarted !! "reply_delay_min" = Some delay_min
  ∧ attrs restarted !! "reply_delay_max" = Some delay_max
  ∧ attrs restarted !! "daily_limit" = Some daily_limit
  ∧ attrs restarted !! "scan_interval" = Some scan_interval
  ∧ auto_reply_enabled restarted = false
  ∧ stop_listening restarted = false.
Proof.
  intros Hok Hfits saving restarted.
  assert (Hsaving : saving
            = (set_db (save_account_config (db self) (account_uid self)
                         (auto_reply_enabled self) delay_min delay_max daily_limit
                         scan_interval now).1
                 (gui_save_config delay_min delay_max daily_limit scan_interval self),
               [], inr tt)).
  { unfold saving, MessageWindow_save_config, MessageManager_save_account_config,
      mbind, M_bind, mret, M_ret, modify_self, getattr, gui_save_config, set_attr.
    simpl.
    repeat (rewrite ?lookup_insert_eq; rewrite ?lookup_insert_ne by done; simpl).
    done. }
  unfold restarted. rewrite Hsaving. unfold final_state, outcome. cbn [fst snd].
  change (db (set_db ?d ?s)) with d.
  split; [done|].
  destruct (init_flags (save_account_config (db self) (account_uid self)
                          (auto_reply_enabled self) delay_min delay_max daily_limit
                          scan_interval now).1 (account_uid self) today) as [-> ->].
  rewrite !attrs_init_setting by done.
  unfold load_account_config, get_account_config, save_account_config.
  rewrite Hok. simpl. rewrite Hfits. simpl. rewrite Hok, lookup_insert_eq. simpl.
  repeat split;
    repeat (rewrite ?lookup_insert_eq; rewrite ?lookup_insert_ne by done); done.
Qed.

(** The dialog saves 1, 3, 0, 30 while the worker is listening; the next
    manager starts with these values and does not listen. *)
Lemma saved_settings_survive_a_restart_witness :
  let self := sample_manager hi_rules in
  let saving := MessageWindow_save_config 1 3 0 30 300 self in
  let restarted := MessageManager_init (db (final_state saving)) "42" "2024-01-02" in
  auto_reply_enabled self = true
  ∧ attrs self !! "scan_interval" = Some 8%Z
  ∧ attrs restarted !! "scan_interval" = Some 30%Z
  ∧ auto_reply_enabled restarted = false.
Proof.
  intros self saving restarted.
  destruct (saved_settings_survive_a_restart self 1 3 0 30 300 "2024-01-02"
              eq_refl eq_refl)
    as (_ & _ & _ & _ & Hs & He & _).
  split; [reflexivity|]. split; [reflexivity|]. split; [exact Hs|exact He].
Defined.

(** ** The counters and the log *)

(** X9: on a working database, for a session type and counters that fit
    SQLite's 64-bit integers, [log_auto_reply] answers [True], adds one
    row to the log and one to the lifetime counter of the account; the
    today counter goes up by one on a row of the same date and restarts at
    1 otherwise; no other account's counters move; and a manager that
    refreshes its count on that date reads the new today counter. *)
Theorem log_auto_reply_counts_one (self : MessageManager)
    (sender received reply kw kind : string) (st : Z) (now : Q) (today other : string) :
  db_ok (db self) = true →
  in_int64 st = true →
  (∀ row, stats_table (db self) !! account_uid self = Some row →
          in_int64 (total_replies row + 1) = true
          ∧ in_int64 (today_replies row + 1) = true) →
  let uid := account_uid self in
  let logged := log_auto_reply (db self) uid sender received reply kw kind st
                  now today in
  let before := stats_table (db self) !! uid in
  let new_today := match before with
                   | Some row => if last_update_date row =? today
                                 then (today_replies row + 1)%Z else 1%Z
                   | None => 1%Z
                   end in
  logged.2 = true
  ∧ length (logs_table logged.1) = S (length (logs_table (db self)))
  ∧ (∃ row, get_reply_stats logged.1 uid = Some row
            ∧ total_replies row = (default 0%Z (total_replies <$> before) + 1)%Z
            ∧ today_replies row = new_today
            ∧ last_update_date row = today)
  ∧ (other ≠ uid → get_reply_stats logged.1 other = get_reply_stats (db self) other)
  ∧ attrs (_update_today_count today (set_db logged.1 self)) !! "today_reply_count"
    = Some new_today.
Proof.
  intros Hok Hst Hfits uid logged before new_today.
  unfold logged, log_auto_reply. rewrite Hok, Hst. cbn [andb].
  unfold _update_stats. fold uid before. unfold new_today.
  destruct before as [row|] eqn:Hbefore.
  - destruct (Hfits row Hbefore) as [Htotal Htoday]. rewrite Htotal.
    destruct (last_update_date row =? today) eqn:Hdate; rewrite ?Htoday; simpl.
    all: split; [done|]; split; [rewrite length_app; simpl; lia|].
    all: unfold get_reply_stats, _update_today_count, get_reply_stats; simpl.
    all: rewrite ?Hok.
    all: split; [eexists; split; [apply lookup_insert_eq|]; simpl;
                 rewrite ?Hbefore; done|].
    all: split; [intros Hne; by rewrite lookup_insert_ne|].
    all: rewrite lookup_insert_eq; simpl; rewrite String.eqb_refl; simpl.
    all: apply lookup_insert_eq.
  - simpl. split; [done|]. split; [rewrite length_app; simpl; lia|].
    unfold get_reply_stats, _update_today_count, get_reply_stats. simpl.
    rewrite ?Hok.
    split; [eexists; split; [apply lookup_insert_eq|]; simpl; done|].
    split; [intros Hne; by rewrite lookup_insert_ne|].
    rewrite lookup_insert_eq. simpl. rewrite String.eqb_refl. simpl.
    apply lookup_insert_eq.
Qed.

(** Two replies logged on the first of January, a third on the second:
    the today counter reads 1, 2, 1 and the lifetime counter ends at 3. *)
Lemma log_auto_reply_counts_one_witness :
  let d0 := sample_db hi_rules in
  let d1 := (log_auto_reply d0 "42" "7" "hi" "hello" "hi" "contains" 1 100
               "2024-01-01").1 in
  let d2 := (log_auto_reply d1 "42" "7" "hi" "hello" "hi" "contains" 1 200
               "2024-01-01").1 in
  let d3 := (log_auto_reply d2 "42" "7" "hi" "hello" "hi" "contains" 1 300
               "2024-01-02").1 in
  (today_replies <$> get_reply_stats d1 "42") = Some 1%Z
  ∧ (today_replies <$> get_reply_stats d2 "42") = Some 2%Z
  ∧ (today_replies <$> get_reply_stats d3 "42") = Some 1%Z
  ∧ (total_replies <$> get_reply_stats d3 "42") = Some 3%Z
  ∧ attrs (_update_today_count "2024-01-02" (set_db d3 (sample_manager hi_rules)))
      !! "today_reply_count" = Some 1%Z.
Proof.
  intros d0 d1 d2 d3.
  do 4 (split; [vm_compute; reflexivity|]).
  apply (log_auto_reply_counts_one (set_db d2 (sample_manager hi_rules))
           "7" "hi" "hello" "hi" "contains" 1 300 "2024-01-02" "43" eq_refl eq_refl).
  intros row Hrow. vm_compute in Hrow. injection Hrow as <-. by split.
Defined.

(** ** The log listing and its cleanup *)

Lemma newest_first_total l1 l2 :
  newest_first l1 l2 = false → newest_first l2 l1 = true.
Proof.
  unfold newest_first. intros H. apply Qle_bool_iff.
  destruct (Qlt_le_dec (l_created_time l1) (l_created_time l2)) as [Hlt|Hle].
  - by apply Qlt_le_weak.
  - apply Qle_bool_iff in Hle. congruence.
Qed.

Lemma newest_first_trans l1 l2 l3 :
  newest_first l1 l2 = true → newest_first l2 l3 = true → newest_first l1 l3 = true.
Proof.
  unfold newest_first. rewrite !Qle_bool_iff. intros H1 H2. by eapply Qle_trans.
Qed.

Lemma StronglySorted_take {A} (R : relation A) n l :
  StronglySorted R l → StronglySorted R (take n l).
Proof.
  intros H. rewrite <- (take_drop n l) in H.
  by apply StronglySorted_app in H as (_ & ? & _).
Qed.

Lemma StronglySorted_drop {A} (R : relation A) n l :
  StronglySorted R l → StronglySorted R (drop n l).
Proof.
  intros H. rewrite <- (take_drop n l) in H.
  by apply StronglySorted_app in H as (_ & _ & ?).
Qed.

Lemma elem_of_filter_bool {A} (p : A → bool) l x :
  x ∈ List.filter p l ↔ x ∈ l ∧ p x = true.
Proof. rewrite !list_elem_of_In. apply filter_In. Qed.

Lemma elem_of_stable_sort {A} (leb : A → A → bool) l x :
  x ∈ stable_sort leb l ↔ x ∈ l.
Proof. by rewrite stable_sort_perm. Qed.

(** X10: a page of the log.  For limits and an offset that are not
    negative and, also when added up, fit SQLite's 64-bit integers,
    [get_reply_logs] returns at most [limit] rows, each a row of the table
    that belongs to the account, the newest first; the page that starts
    where this one ends continues it (the two together are the page of
    both limits); and with no limit and no offset every row of the
    account is listed once. *)
Theorem reply_logs_come_in_pages (database : AutoReplyDatabase) (uid : string)
    (limit more offset : Z) :
  (0 ≤ limit)%Z → (0 ≤ more)%Z → (0 ≤ offset)%Z →
  in_int64 (limit + more) = true →
  in_int64 (offset + limit) = true →
  let page := get_reply_logs database uid limit offset in
  (length page ≤ Z.to_nat limit)%nat
  ∧ Forall (λ l, l_account_uid l = uid ∧ l ∈ logs_table database) page
  ∧ StronglySorted (λ a b, (l_created_time b <= l_created_time a)%Q) page
  ∧ page ++ get_reply_logs database uid more (offset + limit)
    = get_reply_logs database uid (limit + more) offset
  ∧ (db_ok database = true →
     get_reply_logs database uid (-1) 0
     ≡ₚ List.filter (λ l, l_account_uid l =? uid) (logs_table database)).
Proof.
  intros Hl Hm Ho Hsum Hend page. unfold page, get_reply_logs.
  assert (Hfits : ∀ z, (0 ≤ z)%Z → (z ≤ limit + more ∨ z ≤ offset + limit)%Z →
                       in_int64 z = true).
  { intros z Hz Hle. unfold in_int64 in *. lia. }
  rewrite !(Hfits limit), !(Hfits offset), !(Hfits more), Hsum, Hend by lia.
  change (in_int64 (-1)) with true. change (in_int64 0) with true.
  destruct (db_ok database); simpl.
  2:{ split; [lia|]. repeat split; try constructor. done. }
  assert (Hlim : ∀ z, (0 ≤ z)%Z → (z <? 0)%Z = false) by (intros; lia).
  rewrite !Hlim by lia.
  set (rows := stable_sort newest_first
                 (List.filter (λ l, l_account_uid l =? uid) (logs_table database))).
  split; [rewrite length_take; lia|].
  split.
  { apply Forall_take, Forall_drop, Forall_forall. intros l Hin.
    apply elem_of_stable_sort, elem_of_filter_bool in Hin as [Hin Hacc].
    split; [by apply String.eqb_eq|done]. }
  split.
  { apply StronglySorted_take, StronglySorted_drop.
    eapply StronglySorted_weaken;
      [|apply stable_sort_sorted; [apply newest_first_total|apply newest_first_trans]].
    intros a b Hab. by apply Qle_bool_iff. }
  split.
  { rewrite !Z2Nat.inj_add by lia. rewrite <- drop_drop. apply take_take_drop. }
  intros _. rewrite drop_0. apply stable_sort_perm.
Qed.

(** The newest row of account 42 is the first page of one row, the older
    one the second, and the two are the page of two rows. *)
Lemma reply_logs_come_in_pages_witness :
  (l_created_time <$> get_reply_logs sample_logs_db "42" 1 0) = [300%Q]
  ∧ (l_created_time <$> get_reply_logs sample_logs_db "42" 1 1) = [100%Q]
  ∧ get_reply_logs sample_logs_db "42" 1 0 ++ get_reply_logs sample_logs_db "42" 1 1
    = get_reply_logs sample_logs_db "42" 2 0.
Proof.
  split; [reflexivity|]. split; [reflexivity|].
  exact (proj1 (proj2 (proj2 (proj2
           (reply_logs_come_in_pages sample_logs_db "42" 1 1 0
              ltac:(lia) ltac:(lia) ltac:(lia) eq_refl eq_refl))))).
Defined.

(** X11: for a number of days whose seconds a float can hold,
    [delete_old_logs] succeeds on a working database and removes, for
    every account and not only the caller's, exactly the rows older than
    [days] days: a row is listed afterwards if and only if it was listed
    before and is not older than the cutoff.  The counters, the rules and
    the settings are not touched, so the lifetime counter goes on counting
    the replies whose rows are gone. *)
Theorem old_logs_are_deleted_for_every_account (database : AutoReplyDatabase)
    (days : Z) (now : Q) (uid : string) :
  db_ok database = true →
  float_of_int_overflows (days * 24 * 3600) = false →
  let cleaned := delete_old_logs database days now in
  let cutoff := (now - inject_Z (days * 24 * 3600))%Q in
  cleaned.2 = true
  ∧ (∀ l, l ∈ get_reply_logs cleaned.1 uid (-1) 0 ↔
          l ∈ get_reply_logs database uid (-1) 0 ∧ (cutoff <= l_created_time l)%Q)
  ∧ get_reply_stats cleaned.1 uid = get_reply_stats database uid
  ∧ get_auto_reply_rules cleaned.1 uid false = get_auto_reply_rules database uid false
  ∧ get_account_config cleaned.1 uid = get_account_config database uid.
Proof.
  intros Hok Hdays cleaned cutoff. unfold cleaned, delete_old_logs.
  rewrite Hok, Hdays. cbn [fst snd andb negb]. split; [done|].
  split.
  { intros l. unfold get_reply_logs. cbn [db_ok set_logs_table logs_table].
    rewrite Hok. change (in_int64 (-1)) with true. change (in_int64 0) with true.
    cbn [andb Z.ltb Z.compare Z.to_nat]. rewrite !drop_0.
    rewrite !elem_of_stable_sort, !elem_of_filter_bool, Qle_bool_iff.
    fold cutoff. tauto. }
  unfold get_reply_stats, get_auto_reply_rules, get_account_config.
  cbn [db_ok set_logs_table stats_table rules_table configs_table].
  by rewrite Hok.
Qed.

(** A cleanup run by anyone at time 10 * 86400 + 250, keeping ten days:
    of account 42's rows only the one written at 300 is left, and account
    43's row written at 200 is gone as well. *)
Lemma old_logs_are_deleted_for_every_account_witness :
  let cleaned := (delete_old_logs sample_logs_db 10 864250).1 in
  (l_created_time <$> get_reply_logs cleaned "42" (-1) 0) = [300%Q]
  ∧ get_reply_logs cleaned "43" (-1) 0 = []
  ∧ (total_replies <$> get_reply_stats cleaned "43") = Some 1%Z
  ∧ get_reply_stats cleaned "42" = get_reply_stats sample_logs_db "42".
Proof.
  intros cleaned.
  split; [reflexivity|]. split; [reflexivity|]. split; [reflexivity|].
  exact (proj1 (proj2 (proj2
           (old_logs_are_deleted_for_every_account sample_logs_db 10 864250 "42"
              eq_refl eq_refl)))).
Defined.

(** ** The loop: how it paces itself, how far it looks *)

Lemma py_sleep_ok rt secs self :
  (0 ≤ secs ≤ sleep_max rt)%Z →
  py_sleep rt secs self = (self, [EvSleep secs], inr tt).
Proof.
  intros Hsecs. unfold py_sleep.
  rewrite (proj2 (Z.ltb_ge secs 0)), (proj2 (Z.ltb_ge (sleep_max rt) secs)) by lia.
  done.
Qed.

Lemma py_sleep_ten rt secs self :
  (0 ≤ secs ≤ 10)%Z → py_sleep rt secs self = (self, [EvSleep secs], inr tt).
Proof. intros Hsecs. apply py_sleep_ok. pose proof (sleep_max_ten rt). lia. Qed.

(** The handler of the scan: the exception, then ten seconds. *)
Lemma scan_handler_spec rt e self :
  (emit (EvCaught e) ;; py_sleep rt 10) self = (self, [EvCaught e; EvSleep 10], inr tt).
Proof.
  unfold mbind, M_bind, emit. by rewrite (py_sleep_ten rt 10 self) by lia.
Qed.

(** X13: the loop never spins.  Every iteration ends with a sleep: 10
    seconds when [get_sessions] fails, 8 seconds when it returns no
    session, and after a scan either the [scan_interval] the object holds
    at that moment or, when the scan or that sleep raised, the 10 seconds
    of the handler. *)
Theorem every_iteration_ends_with_a_sleep (rt : PyRuntime) (inp : scan_input)
    (self : MessageManager) :
  let run := worker_iteration rt inp self in
  ∃ before secs,
    trace_of run = before ++ [EvSleep secs]
    ∧ (0 ≤ secs)%Z
    ∧ match in_sessions inp with
      | None => before = [] ∧ secs = 10%Z
      | Some [] => before = [] ∧ secs = 8%Z
      | Some _ => attrs (final_state run) !! "scan_interval" = Some secs
                  ∨ (secs = 10%Z ∧ ∃ e before', before = before' ++ [EvCaught e])
      end.
Proof.
  intros run.
  enough (∃ before secs s,
            run = (s, before ++ [EvSleep secs], inr tt)
            ∧ (0 ≤ secs)%Z
            ∧ match in_sessions inp with
              | None => before = [] ∧ secs = 10%Z
              | Some [] => before = [] ∧ secs = 8%Z
              | Some _ => attrs s !! "scan_interval" = Some secs
                          ∨ (secs = 10%Z
                             ∧ ∃ e before', before = before' ++ [EvCaught e])
              end) as (before & secs & s & -> & Hsecs & Hcase).
  { exists before, secs. split; [done|]. split; [done|]. exact Hcase. }
  unfold run, worker_iteration, try_except.
  destruct (in_sessions inp) as [[|sess sessions]|].
  - rewrite (py_sleep_ten rt 8 self) by lia. by exists [], 8%Z, self.
  - unfold mbind at 1, M_bind at 1.
    match goal with
    | |- context [foldr ?f ?a ?l self] =>
        destruct (foldr f a l self) as [[s0 tr0] [e|[]]]
    end.
    { rewrite scan_handler_spec. exists (tr0 ++ [EvCaught e]), 10%Z, s0.
      split; [by rewrite <- app_assoc|]. split; [done|]. right. eauto. }
    unfold mbind at 1, M_bind at 1.
    destruct (scan_sessions _ _ _ _ s0) as [[s tr] [e|[]]].
    { rewrite scan_handler_spec. exists ((tr0 ++ tr) ++ [EvCaught e]), 10%Z, s.
      split; [by rewrite <- !app_assoc|]. split; [done|]. right. eauto. }
    unfold mbind, M_bind, getattr.
    destruct (attrs s !! "scan_interval") as [v|] eqn:Hv.
    2:{ unfold raise, emit; cbn -[py_sleep]; rewrite (py_sleep_ten rt 10 s) by lia.
        exists ((tr0 ++ tr) ++ [EvCaught (AttributeError "scan_interval")]), 10%Z, s.
        rewrite app_nil_r.
        split; [by rewrite <- !app_assoc|]. split; [done|]. right. eauto. }
    unfold py_sleep at 1. destruct (v <? 0)%Z eqn:Hneg.
    { unfold raise, emit; cbn -[py_sleep]; rewrite (py_sleep_ten rt 10 s) by lia.
      exists ((tr0 ++ tr) ++ [EvCaught ValueError]), 10%Z, s.
      rewrite app_nil_r.
      split; [by rewrite <- !app_assoc|]. split; [done|]. right. eauto. }
    destruct (sleep_max rt <? v)%Z.
    { unfold raise, emit; cbn -[py_sleep]; rewrite (py_sleep_ten rt 10 s) by lia.
      exists ((tr0 ++ tr) ++ [EvCaught OverflowError]), 10%Z, s.
      rewrite app_nil_r.
      split; [by rewrite <- !app_assoc|]. split; [done|]. right. eauto. }
    unfold emit. cbn. exists (tr0 ++ tr), v, s. rewrite ?app_nil_r.
    split; [by rewrite <- !app_assoc|]. split; [lia|]. by left.
  - rewrite (py_sleep_ten rt 10 self) by lia. by exists [], 10%Z, self.
Qed.

(** A scan reads its input through the clock and the fetches of the
    sessions it visits. *)
Lemma scan_sessions_fetch rt inp inp' i sessions self :
  in_current_time inp = in_current_time inp' →
  (∀ k, (i ≤ k < i + length sessions)%nat → in_fetch inp k = in_fetch inp' k) →
  scan_sessions rt inp i sessions self = scan_sessions rt inp' i sessions self.
Proof.
  intros Htime. revert i self.
  induction sessions as [|sess rest IH]; intros i self Hfetch; [done|].
  simpl. unfold mbind, M_bind, get_self.
  destruct (cancelled self); [done|].
  assert (scan_session rt inp i sess self = scan_session rt inp' i sess self) as ->.
  { unfold scan_session. rewrite Htime, (Hfetch i) by (simpl; lia). done. }
  destruct (scan_session rt inp' i sess self) as [[s tr] [e|x]]; [done|].
  rewrite (IH (S i)); [done|]. intros k Hk. apply Hfetch. simpl. lia.
Qed.

Lemma take_min_length {A} (n : nat) (l : list A) :
  take (Nat.min n (length l)) l = take n l.
Proof.
  destruct (Nat.le_ge_cases n (length l)) as [Hle|Hge].
  - by rewrite Nat.min_l.
  - rewrite Nat.min_r by done. by rewrite firstn_all, take_ge.
Qed.

(** X14: a scan looks at the first twenty sessions only.  An iteration
    over a list of sessions is the iteration over its first twenty, and
    the messages of a session further down the list are never fetched:
    two transports that agree on the first twenty fetches give the same
    iteration. *)
Theorem only_twenty_sessions_are_scanned (rt : PyRuntime) (sessions : list session)
    (now : Q) (fetch fetch' : nat → option (list (gmap string pyval * msg_env)))
    (self : MessageManager) :
  (∀ i, (i < 20)%nat → fetch i = fetch' i) →
  worker_iteration rt {| in_sessions := Some sessions; in_current_time := now;
                         in_fetch := fetch |} self
  = worker_iteration rt {| in_sessions := Some (take 20 sessions);
                           in_current_time := now; in_fetch := fetch' |} self.
Proof.
  intros Hfetch. unfold worker_iteration. cbn [in_sessions].
  destruct sessions as [|sess rest]; [done|].
  change (take 20 (sess :: rest)) with (sess :: take 19 rest).
  assert (Hshown : take 10 (sess :: take 19 rest) = take 10 (sess :: rest)).
  { change (sess :: take 19 rest) with (take 20 (sess :: rest)). by rewrite take_take. }
  rewrite Hshown, !take_min_length.
  change (sess :: take 19 rest) with (take 20 (sess :: rest)).
  rewrite take_take, Nat.min_id.
  set (first := take 20 (sess :: rest)).
  set (shown := take 10 (sess :: rest)).
  unfold try_except, mbind, M_bind.
  match goal with
  | |- context [foldr ?f ?a shown self] =>
      destruct (foldr f a shown self) as [[s0 tr0] [e|[]]]; [done|]
  end.
  rewrite (scan_sessions_fetch rt _
             {| in_sessions := Some first; in_current_time := now;
                in_fetch := fetch' |} 0 first s0); [done|done|].
  intros k Hk. apply Hfetch. unfold first in Hk. rewrite length_take in Hk.
  cbn [in_fetch]. lia.
Qed.

(** Twenty-one sessions of which only the last has a message to answer:
    the iteration is the one over the first twenty, and sends nothing. *)
Lemma only_twenty_sessions_are_scanned_witness :
  let sessions := replicate 21 sample_session in
  let fetch := λ i : nat, if (i <? 20)%nat then None
                          else Some [(sample_message 7 1000 "hi", sample_env)] in
  let self := deliverable_manager hi_rules in
  worker_iteration sample_runtime
    {| in_sessions := Some sessions; in_current_time := 1500; in_fetch := fetch |} self
  = worker_iteration sample_runtime
      {| in_sessions := Some (take 20 sessions); in_current_time := 1500;
         in_fetch := λ _, None |} self
  ∧ trace_of (worker_iteration sample_runtime
                {| in_sessions := Some sessions; in_current_time := 1500;
                   in_fetch := fetch |} self) = [EvSleep 8].
Proof.
  intros sessions fetch self. split; [|vm_compute; reflexivity].
  apply (only_twenty_sessions_are_scanned sample_runtime sessions 1500 fetch
           (λ _, None) self).
  intros i Hi. unfold fetch. by rewrite (proj2 (Nat.ltb_lt i 20) Hi).
Defined.

(** ** The preview of the newest messages *)

Lemma silent_ret {A} ok (x : A) self : silent ok (mret x) self.
Proof. exists (inr x). by split. Qed.

Lemma silent_raise {A} (ok : exn → Prop) e self :
  ok e → silent ok (raise (A:=A) e) self.
Proof. intros He. exists (inl e). split; [done|]. by intros ? [= <-]. Qed.

Lemma silent_bind {A B} ok (m : M A) (f : A → M B) self :
  silent ok m self → (∀ x, silent ok (f x) self) → silent ok (m ≫= f) self.
Proof.
  intros (res & Hm & Hres) Hf. unfold silent, mbind, M_bind. rewrite Hm.
  destruct res as [e|x].
  - exists (inl e). split; [done|]. intros e' [= <-]. by apply Hres.
  - destruct (Hf x) as (res' & -> & Hres'). by exists res'.
Qed.

Lemma silent_localtime rt v self : silent (timestamp_exn rt) (py_localtime rt v) self.
Proof.
  unfold py_localtime. destruct (localtime_exn rt v) as [e|] eqn:He.
  - apply silent_raise. destruct v as [ts|s|]; simpl in He.
    + right. right. by exists ts.
    + left. congruence.
    + done.
  - apply silent_ret.
Qed.

Lemma silent_last_msg_timestamp rt sess self :
  silent (timestamp_exn rt) (last_msg_timestamp sess) self.
Proof.
  unfold last_msg_timestamp. destruct (last_msg sess).
  - apply silent_ret.
  - apply silent_raise. right. by left.
Qed.

(** The overview of the sessions changes nothing and shows nothing. *)
Lemma silent_overview rt (sessions : list session) self :
  silent (timestamp_exn rt)
    (foldr (λ sess rest, overview_session rt sess ;; rest) (mret tt) sessions) self.
Proof.
  induction sessions as [|sess l IH]; simpl; [apply silent_ret|].
  apply silent_bind; [|done].
  unfold overview_session. apply silent_bind; [apply silent_last_msg_timestamp|].
  intros [ts|s|].
  - destruct (0 <? ts)%Z; [apply silent_localtime|apply silent_ret].
  - apply silent_raise. by left.
  - apply silent_raise. by left.
Qed.

(** So does the preview of a message. *)
Lemma silent_preview_message rt msg self :
  silent (timestamp_exn rt) (preview_message rt msg) self.
Proof.
  unfold preview_message. apply silent_bind.
  - destruct (bool_decide _); [|apply silent_ret].
    destruct (dict_get msg "content" (PStr "")) as [n|raw|].
    + destruct (py_truthy (PInt n)); [apply silent_raise; by left|apply silent_ret].
    + destruct (json_content rt raw); apply silent_ret.
    + apply silent_ret.
  - intros text. apply silent_bind; [apply silent_localtime|]. intros _.
    destruct text; [apply silent_raise; by left|apply silent_ret
                   |apply silent_raise; by left].
Qed.

Lemma preview_message_bad_timestamp rt msg s self :
  dict_get msg "timestamp" (PInt 0) = PStr s →
  preview_message rt msg self = (self, [], inl TypeError).
Proof.
  intros Hts. unfold preview_message, mbind, M_bind, py_localtime. rewrite Hts.
  destruct (bool_decide (dict_get msg "msg_type" (PInt 0) = PInt 1)); [|done].
  destruct (dict_get msg "content" (PStr "")) as [n|raw|]; simpl.
  - by destruct (n =? 0)%Z.
  - by destruct (json_content rt raw) as [[| |]|].
  - done.
Qed.

Lemma preview_loop_bad_timestamp rt (messages : list (gmap string pyval * msg_env))
    k msg env s self :
  messages !! k = Some (msg, env) →
  dict_get msg "timestamp" (PInt 0) = PStr s →
  ∃ e, timestamp_exn rt e
       ∧ foldr (λ m rest, preview_message rt m.1 ;; rest) (mret tt) messages self
         = (self, [], inl e).
Proof.
  intros Hk Hts. revert k Hk.
  induction messages as [|[m e] rest IH]; intros k Hk; [done|].
  simpl. unfold mbind, M_bind.
  destruct k as [|k]; simpl in Hk.
  - injection Hk as -> ->. rewrite (preview_message_bad_timestamp rt msg s self) by done.
    exists TypeError. split; [by left|done].
  - destruct (silent_preview_message rt m self) as ([e'|[]] & -> & Hres).
    + exists e'. split; [by apply Hres|done].
    + destruct (IH k Hk) as (e' & He' & Hloop). exists e'. split; [done|].
      unfold mbind, M_bind in Hloop. by rewrite Hloop.
Qed.

(** X15: the preview is outside the per-message handler.  When one of the
    three newest messages of the first session carries a timestamp that is
    a string, the scan is over before any message is processed: the whole
    iteration comes down to the handler of the scan (one exception raised
    by a timestamp, at the latest the [TypeError] of that message, then 10
    seconds of sleep), no message of any session is looked at, and nothing
    is recorded, so the same message stops the next scan again. *)
Theorem malformed_preview_aborts_the_scan (rt : PyRuntime) (sess : session)
    (others : list session) (now : Q)
    (fetch : nat → option (list (gmap string pyval * msg_env)))
    (messages : list (gmap string pyval * msg_env)) (k : nat)
    (msg : gmap string pyval) (env : msg_env) (s : string) (self : MessageManager) :
  cancelled self = false →
  talker_id sess ≠ 0%Z →
  fetch 0%nat = Some messages →
  (k < 3)%nat →
  messages !! k = Some (msg, env) →
  dict_get msg "timestamp" (PInt 0) = PStr s →
  ∃ e, timestamp_exn rt e
       ∧ worker_iteration rt {| in_sessions := Some (sess :: others);
                                in_current_time := now; in_fetch := fetch |} self
         = (self, [EvCaught e; EvSleep 10], inr tt).
Proof.
  intros Hrun Htalker Hfetch Hk Hmsg Hts.
  set (inp := {| in_sessions := Some (sess :: others); in_current_time := now;
                 in_fetch := fetch |}).
  assert (Hscan : ∃ e, timestamp_exn rt e
            ∧ scan_session rt inp 0 sess self = (self, [], inl e)).
  { unfold scan_session. rewrite (proj2 (Z.eqb_neq _ _) Htalker).
    unfold mbind at 1, M_bind at 1.
    destruct (silent_last_msg_timestamp rt sess self) as ([e|v] & -> & Hres).
    { exists e. split; [by apply Hres|done]. }
    unfold mbind at 1, M_bind at 1.
    destruct (silent_localtime rt v self) as ([e|[]] & -> & Hres').
    { exists e. split; [by apply Hres'|done]. }
    cbn [in_fetch inp]. rewrite Hfetch.
    destruct messages as [|m0 ms] eqn:Hmessages; [done|]. rewrite <- Hmessages in *.
    unfold mbind at 1, M_bind at 1.
    destruct (preview_loop_bad_timestamp rt (take 3 messages) k msg env s self)
      as (e & He & ->); [by rewrite lookup_take_lt|done|].
    exists e. by split. }
  unfold worker_iteration. cbn [in_sessions inp]. rewrite take_min_length.
  change (take 20 (sess :: others)) with (sess :: take 19 others).
  unfold try_except, mbind at 1, M_bind at 1.
  destruct (silent_overview rt (take 10 (sess :: others)) self) as ([e|[]] & -> & Hres).
  { exists e. split; [by apply Hres|]. by rewrite scan_handler_spec. }
  unfold mbind at 1, M_bind at 1. cbn [scan_sessions].
  unfold mbind at 1, M_bind at 1, get_self. rewrite Hrun.
  unfold mbind at 1, M_bind at 1.
  destruct Hscan as (e & He & ->).
  exists e. split; [done|]. by rewrite scan_handler_spec.
Qed.

(** A message that would be answered comes first, an undated one second:
    the iteration answers nothing. *)
Lemma malformed_preview_aborts_the_scan_witness :
  let self := deliverable_manager hi_rules in
  let messages := [(sample_message 7 1000 "hi", sample_env);
                   (undated_message, sample_env)] in
  worker_iteration sample_runtime
    {| in_sessions := Some [sample_session; sample_session]; in_current_time := 1500;
       in_fetch := λ _, Some messages |} self
  = (self, [EvCaught TypeError; EvSleep 10], inr tt)
  ∧ ∃ e, timestamp_exn sample_runtime e
         ∧ worker_iteration sample_runtime
             {| in_sessions := Some [sample_session; sample_session];
                in_current_time := 1500; in_fetch := λ _, Some messages |} self
           = (self, [EvCaught e; EvSleep 10], inr tt).
Proof.
  intros self messages. split; [vm_compute; reflexivity|].
  apply (malformed_preview_aborts_the_scan sample_runtime sample_session
           [sample_session] 1500 (λ _, Some messages) messages 1 undated_message
           sample_env "soon" self).
  - reflexivity.
  - done.
  - reflexivity.
  - lia.
  - reflexivity.
  - vm_compute. reflexivity.
Defined.

(** ** Messages that are not for the matcher *)

(** X16: the worker does not answer itself, and answers text only.  A
    message whose sender is the account, or whose type is not 1, is
    dropped before its identity is computed: the step leaves the object
    as it was (the message is not recorded as processed), neither sleeps
    nor sends, and raises nothing, whatever the rules.  All it can show is
    the exception its handler swallows when the timestamp, which is
    formatted first, is one [time.localtime] refuses; on every other
    timestamp it does nothing at all. *)
Theorem own_and_non_text_messages_are_ignored (rt : PyRuntime) (sess : session)
    (now : Q) (msg : gmap string pyval) (env : msg_env) (self : MessageManager) :
  py_str (dict_get msg "sender_uid" PNone) = account_uid self
  ∨ dict_get msg "msg_type" (PInt 0) ≠ PInt 1 →
  process_message rt sess now msg env self
  = (self,
     match localtime_exn rt (dict_get msg "timestamp" (PInt 0)) with
     | Some e => [EvCaught e]
     | None => []
     end,
     inr tt).
Proof.
  intros Hskip.
  unfold process_message, try_except, process_message_body, py_localtime.
  destruct (localtime_exn rt (dict_get msg "timestamp" (PInt 0))) as [e|]; [done|].
  unfold mbind, M_bind, get_self. simpl.
  destruct (py_str (dict_get msg "sender_uid" PNone) =? account_uid self)
    eqn:Hown; [done|].
  destruct Hskip as [Hme|Hkind];
    [by rewrite Hme, String.eqb_refl in Hown|].
  by rewrite bool_decide_eq_false_2.
Qed.

(** The account's own "hi", and an image from the sample peer: nothing
    happens; the same image dated before 1970, which the sample runtime
    cannot break down, leaves the exception in the trace. *)
Lemma own_and_non_text_messages_are_ignored_witness :
  let self := deliverable_manager hi_rules in
  process_message sample_runtime sample_session 1500 (sample_message 42 1000 "hi")
    sample_env self = (self, [], inr tt)
  ∧ process_message sample_runtime sample_session 1500
      (<["msg_type" := PInt 2]> (sample_message 7 1000 "hi")) sample_env self
    = (self, [], inr tt)
  ∧ process_message sample_runtime sample_session 1500
      (<["msg_type" := PInt 2]> (sample_message 7 (-5) "hi")) sample_env self
    = (self, [EvCaught OSError], inr tt).
Proof.
  intros self. split; [|split; vm_compute; reflexivity].
  refine (eq_trans (own_and_non_text_messages_are_ignored sample_runtime
                      sample_session 1500 (sample_message 42 1000 "hi") sample_env
                      self _) _).
  - left. vm_compute. reflexivity.
  - vm_compute. reflexivity.
Defined.

(** ** What the delivery step and the loop leave alone *)

(** The delivery step writes to the replied set only. *)
Lemma reply_to_frame rt sess msg_id env res self :
  let after := final_state (reply_to rt sess msg_id env res self) in
  db after = db self
  ∧ attrs after = attrs self
  ∧ account_uid after = account_uid self
  ∧ auto_reply_enabled after = auto_reply_enabled self
  ∧ stop_listening after = stop_listening self
  ∧ processed_messages after = processed_messages self
  ∧ replied_messages self ⊆ replied_messages after.
Proof.
  unfold reply_to, record_send_result, db_getattr.
  rewrite add_reply_log_is_no_method.
  unfold getattr, randint, py_sleep, emit, modify_self, raise, final_state,
    mbind, M_bind, mret, M_ret.
  repeat (case_match; simplify_eq/=); repeat split; try done; set_solver.
Qed.

(** What the insertion step and the delivery step both respect, every run
    of the loop respects. *)
Section WorkerSteps.
Context (rt : PyRuntime).
Context (I : MessageManager → Prop) (g t : event → bool).

Hypothesis t_sleep : ∀ secs, t (EvSleep secs) = true.
Hypothesis t_caught : ∀ e, t (EvCaught e) = true.
Hypothesis steps_mark_processed : ∀ msg_id self,
  respects_at I g t (mark_processed rt msg_id) self.
Hypothesis steps_reply_to : ∀ sess msg_id env res self,
  respects_at I g t (reply_to rt sess msg_id env res) self.

Lemma steps_process_message sess now msg env self :
  respects_at I g t (process_message rt sess now msg env) self.
Proof.
  unfold process_message. apply respects_try.
  - unfold process_message_body.
    repeat first
      [ apply steps_mark_processed
      | apply steps_reply_to
      | respects_step ].
  - intros e _. apply respects_emit. by rewrite t_caught.
Qed.

Lemma steps_process_messages sess now messages self :
  respects_at I g t (process_messages rt sess now messages) self.
Proof.
  revert self. induction messages as [|[msg env] rest IH]; intros self; simpl.
  { respects_step. }
  respects_step. respects_step; [respects_step|].
  respects_step; [apply steps_process_message|apply IH].
Qed.

Lemma steps_scan_sessions inp i sessions self :
  respects_at I g t (scan_sessions rt inp i sessions) self.
Proof.
  revert i self. induction sessions as [|sess rest IH]; intros i self; simpl.
  { respects_step. }
  respects_step. respects_step; [respects_step|].
  respects_step; [|apply IH].
  unfold scan_session. respects_step; [respects_step|].
  respects_step; [respects_step|].
  respects_step; [respects_step|].
  respects_step; [|respects_step].
  respects_step; [respects_step|].
  apply respects_preview_loop. intros s. apply steps_process_messages.
Qed.

Lemma steps_auto_reply_worker inputs self :
  respects_at I g t (_auto_reply_worker rt inputs) self.
Proof.
  revert self. induction inputs as [|inp rest IH]; intros self; simpl.
  { respects_step. }
  respects_step. respects_step; [respects_step|].
  respects_step; [|apply IH].
  unfold worker_iteration. apply respects_try.
  - respects_step; [|by apply respects_sleep].
    respects_step; [by apply respects_sleep|].
    respects_step; [apply respects_overview|].
    respects_step; [apply steps_scan_sessions|].
    respects_step; [respects_step|]. by apply respects_sleep.
  - intros e _. respects_step; [|by apply respects_sleep].
    apply respects_emit. by rewrite t_caught.
Qed.

End WorkerSteps.

(** ** The daily limit *)

Lemma reply_to_limit_reached rt sess msg_id env res self count limit :
  attrs self !! "today_reply_count" = Some count →
  attrs self !! "daily_limit" = Some limit →
  (0 < limit ≤ count)%Z →
  reply_to rt sess msg_id env res self = (self, [], inr tt).
Proof.
  intros Hcount Hlimit Hreached.
  unfold reply_to, mbind, M_bind, getattr. rewrite Hcount, Hlimit.
  rewrite (proj2 (Z.ltb_lt 0 limit)) by lia. rewrite Hlimit. simpl.
  by rewrite (proj2 (Z.leb_le limit count)) by lia.
Qed.

(** X17: once the count of the day has reached a positive daily limit,
    the worker sends nothing for the rest of the run, whatever arrives and
    whatever the date of later scans: the matched message is dropped after
    the limit test, and the count the test reads is refreshed only after a
    delivery (and at construction), so it stays where it is. *)
Theorem nothing_is_sent_once_the_daily_limit_is_reached (rt : PyRuntime)
    (inputs : list scan_input) (self : MessageManager) (count limit : Z) :
  attrs self !! "today_reply_count" = Some count →
  attrs self !! "daily_limit" = Some limit →
  (0 < limit ≤ count)%Z →
  let run := _auto_reply_worker rt inputs self in
  no_sends (trace_of run) = true
  ∧ attrs (final_state run) !! "today_reply_count" = Some count
  ∧ attrs (final_state run) !! "daily_limit" = Some limit
  ∧ replied_messages (final_state run) = replied_messages self.
Proof.
  intros Hcount Hlimit Hreached run.
  destruct (respects_auto_reply_worker rt
              (λ s, attrs s = attrs self ∧ replied_messages s = replied_messages self)
              (λ _, true) (λ ev, negb (is_send ev)) (λ _, True))
    with (inputs := inputs) (self := self) as [[Hattrs Hreplied] Ht]; try done.
  - intros sess msg_id env res s _ [Hattrs Hreplied] _.
    rewrite (reply_to_limit_reached rt sess msg_id env res s count limit)
      by (by rewrite ?Hattrs).
    done.
  - by apply forallb_forall.
  - fold run in Hattrs, Hreplied, Ht. by rewrite Hattrs.
Qed.

(** A manager whose limit of one reply is reached: the "hi" that would be
    answered is recorded and left without an answer. *)
Lemma nothing_is_sent_once_the_daily_limit_is_reached_witness :
  let self := set_attr "today_reply_count" 1 (set_attr "daily_limit" 1
                (deliverable_manager hi_rules)) in
  let run := _auto_reply_worker sample_runtime
               [one_session 1500 [sample_message 7 1000 "hi"]] self in
  trace_of run = [EvSleep 8]
  ∧ elements (processed_messages (final_state run)) = ["7_7_1000_99_3_49f68a5c"]
  ∧ no_sends (trace_of run) = true.
Proof.
  intros self run.
  split; [vm_compute; reflexivity|]. split; [vm_compute; reflexivity|].
  exact (proj1 (nothing_is_sent_once_the_daily_limit_is_reached sample_runtime
                  [one_session 1500 [sample_message 7 1000 "hi"]] self 1 1
                  eq_refl eq_refl ltac:(lia))).
Defined.

(** ** The delivery on an object that has the two delay attributes *)

(** X18: on an object on which [min_delay] and [max_delay] have been
    assigned (0 <= min_delay <= max_delay, and no more than [time.sleep]
    accepts) and whose daily limit is off or not reached, the delivery
    step sleeps once, for a number of seconds within the two bounds, then
    calls [send_message] once, addressed to
    the session's talker with the session's type and carrying the reply of
    the matched rule; it ends, delivered or not, in the [AttributeError]
    of [add_reply_log], having recorded the identity as replied when the
    transport reported success. *)
Theorem delivery_waits_within_the_bounds (rt : PyRuntime) (sess : session)
    (msg_id : string) (env : msg_env) (res : match_result) (self : MessageManager)
    (count limit lo hi : Z) :
  attrs self !! "today_reply_count" = Some count →
  attrs self !! "daily_limit" = Some limit →
  (limit ≤ 0 ∨ count < limit)%Z →
  attrs self !! "min_delay" = Some lo →
  attrs self !! "max_delay" = Some hi →
  (0 ≤ lo ≤ hi)%Z →
  (hi ≤ sleep_max rt)%Z →
  let step := reply_to rt sess msg_id env res self in
  ∃ delay,
    (lo ≤ delay ≤ hi)%Z
    ∧ trace_of step
      = [EvSleep delay;
         EvSend msg_id (talker_id sess) (m_reply_content res) (session_type sess)]
    ∧ outcome step = inl (AttributeError "add_reply_log")
    ∧ final_state step
      = if (send_result env).1
        then set_replied ({[msg_id]} ∪ replied_messages self) self
        else self.
Proof.
  intros Hcount Hlimit Hunder Hlo Hhi Hbounds Hsleep step.
  destruct (randint_in_range (rand_raw env) lo hi self) as (delay & Hrand & Hdelay);
    [lia|].
  exists delay. split; [done|].
  unfold step, reply_to, mbind, M_bind, getattr, trace_of, outcome, final_state.
  rewrite Hcount, Hlimit.
  assert (Hgate : (if (0 <? limit)%Z then (limit <=? count)%Z else false) = false).
  { destruct (0 <? limit)%Z eqn:Hpos; [|done]. apply Z.leb_gt. lia. }
  destruct (0 <? limit)%Z; simpl; rewrite ?Hlimit; simpl; rewrite ?Hgate.
  all: rewrite Hlo, Hhi, Hrand.
  all: rewrite (py_sleep_ok rt delay self) by lia.
  all: unfold record_send_result, db_getattr; rewrite add_reply_log_is_no_method.
  all: by destruct (send_result env).1.
Qed.

(** The sample "hi" on the sample manager with the two delay attributes:
    five seconds of sleep, then the reply to peer 7. *)
Lemma delivery_waits_within_the_bounds_witness :
  let self := deliverable_manager hi_rules in
  let res := result_of_rule (sample_rule 1 "hi" "hello" "contains" 0 (100 # 1)) in
  let step := reply_to sample_runtime sample_session "7_7_1000_99_3_49f68a5c" sample_env res self in
  trace_of step = [EvSleep 5; EvSend "7_7_1000_99_3_49f68a5c" 7 "hello" 1]
  ∧ ∃ delay,
      (2 ≤ delay ≤ 8)%Z
      ∧ trace_of step
        = [EvSleep delay; EvSend "7_7_1000_99_3_49f68a5c" 7 "hello" 1]
      ∧ outcome step = inl (AttributeError "add_reply_log")
      ∧ final_state step
        = set_replied ({["7_7_1000_99_3_49f68a5c"]} ∪ replied_messages self) self.
Proof.
  intros self res step. split; [vm_compute; reflexivity|].
  apply (delivery_waits_within_the_bounds sample_runtime sample_session
           "7_7_1000_99_3_49f68a5c" sample_env res self 0 100 2 8);
    try reflexivity; try lia.
  change (sleep_max sample_runtime) with 9223372036%Z. lia.
Defined.

(** X19: a run of the worker writes to its two sets of identities and to
    nothing else: the database is the one it started with (no log row, no
    counter, no rule, no setting is written), the integer attributes, the
    account and the two flags are unchanged, and the replied set only
    grows. *)
Theorem worker_changes_only_its_two_sets (rt : PyRuntime) (inputs : list scan_input)
    (self : MessageManager) :
  let final := final_state (_auto_reply_worker rt inputs self) in
  db final = db self
  ∧ attrs final = attrs self
  ∧ account_uid final = account_uid self
  ∧ auto_reply_enabled final = auto_reply_enabled self
  ∧ stop_listening final = stop_listening self
  ∧ replied_messages self ⊆ replied_messages final.
Proof.
  intros final.
  destruct (steps_auto_reply_worker rt
              (λ s, db s = db self ∧ attrs s = attrs self
                    ∧ account_uid s = account_uid self
                    ∧ auto_reply_enabled s = auto_reply_enabled self
                    ∧ stop_listening s = stop_listening self
                    ∧ replied_messages self ⊆ replied_messages s)
              (λ _, true) (λ _, true))
    with (inputs := inputs) (self := self) as [HI _]; try done.
  - intros msg_id s HI _. split; [|by apply forallb_forall].
    rewrite mark_processed_spec. by destruct (1000 <? size _)%nat.
  - intros sess msg_id env res s (Hdb & Hattrs & Hacc & Hon & Hstop & Hrep) _.
    split; [|by apply forallb_forall].
    destruct (reply_to_frame rt sess msg_id env res s)
      as (Hdb' & Hattrs' & Hacc' & Hon' & Hstop' & _ & Hrep').
    rewrite Hdb', Hattrs', Hacc', Hon', Hstop'. repeat split; try done.
    by etrans.
  - by apply forallb_forall.
Qed.

(** X20: the dedup set stays bounded over whole runs.  A worker started
    with at most 1000 recorded identities ends every run, however many
    messages it has met, with at most 1000. *)
Theorem dedup_set_stays_bounded (rt : PyRuntime) (inputs : list scan_input)
    (self : MessageManager) :
  (size (processed_messages self) ≤ 1000)%nat →
  (size (processed_messages (final_state (_auto_reply_worker rt inputs self)))
   ≤ 1000)%nat.
Proof.
  intros Hcap.
  destruct (steps_auto_reply_worker rt
              (λ s, (size (processed_messages s) ≤ 1000)%nat)
              (λ _, true) (λ _, true))
    with (inputs := inputs) (self := self) as [HI _]; try done.
  - intros msg_id s HI _. split; [|by apply forallb_forall].
    by apply mark_processed_size.
  - intros sess msg_id env res s HI _. split; [|by apply forallb_forall].
    destruct (reply_to_frame rt sess msg_id env res s) as (_ & _ & _ & _ & _ & Hp & _).
    by rewrite Hp.
  - by apply forallb_forall.
Qed.

(** A fresh manager holds no identity. *)
Lemma dedup_set_stays_bounded_witness :
  let run := _auto_reply_worker sample_runtime
               [one_session 1500 [sample_message 7 1000 "hi"]]
               (deliverable_manager hi_rules) in
  (size (processed_messages (final_state run)) ≤ 1000)%nat.
Proof.
  intros run.
  apply (dedup_set_stays_bounded sample_runtime
           [one_session 1500 [sample_message 7 1000 "hi"]]
           (deliverable_manager hi_rules)).
  change (processed_messages (deliverable_manager hi_rules)) with (∅ : gset string).
  rewrite size_empty. lia.
Defined.

(** ** The case of the text *)

Lemma is_space_lower_char c : is_space (lower_char c) = is_space c.
Proof. by destruct c as [[] [] [] [] [] [] [] []]. Qed.

Lemma py_lower_lstrip s : py_lower (py_lstrip s) = py_lstrip (py_lower s).
Proof.
  induction s as [|c s IH]; [done|]. simpl. rewrite is_space_lower_char.
  by destruct (is_space c).
Qed.

Lemma py_lower_rev_onto s acc :
  py_lower (string_rev_onto s acc) = string_rev_onto (py_lower s) (py_lower acc).
Proof. revert acc. induction s as [|c s IH]; intros acc; [done|]. simpl. by rewrite IH. Qed.

Lemma py_lower_strip s : py_lower (py_strip s) = py_strip (py_lower s).
Proof.
  unfold py_strip, py_rstrip, string_rev.
  by rewrite py_lower_rev_onto, py_lower_lstrip, py_lower_rev_onto, py_lower_lstrip.
Qed.

Lemma py_lower_empty s : (py_lower s =? "") = (s =? "").
Proof. by destruct s. Qed.

Lemma blank_py_lower s : blank (py_lower s) = blank s.
Proof. unfold blank. by rewrite <- py_lower_strip, !py_lower_empty. Qed.

Lemma eval_rule_case_insensitive rt keyword r text text' :
  r_case_sensitive r = false →
  r_match_type r ≠ "regex" →
  py_lower text = py_lower text' →
  eval_rule rt keyword r text = eval_rule rt keyword r text'.
Proof.
  intros Hcase Hkind Hsame. unfold eval_rule. rewrite Hcase, Hsame.
  destruct (r_match_type r =? "regex") eqn:Hregex;
    [by apply String.eqb_eq in Hregex|].
  done.
Qed.

Lemma match_rules_case_insensitive rt rules text text' :
  Forall (λ r, r_case_sensitive r = false ∧ r_match_type r ≠ "regex") rules →
  py_lower text = py_lower text' →
  match_rules rt rules text = match_rules rt rules text'.
Proof.
  intros Hrules Hsame. induction Hrules as [|r rules [Hcase Hkind] _ IH]; [done|].
  simpl. rewrite IH.
  by rewrite (eval_rule_case_insensitive rt _ r text text').
Qed.

(** X21: when none of the account's enabled rules is case-sensitive or a
    regular expression, the matcher does not see the case of the text:
    two texts that are equal once lowered get the same answer (the same
    rule, or none), the blank-text test included. *)
Theorem case_of_the_text_does_not_matter (rt : PyRuntime) (self : MessageManager)
    (text text' : string) :
  (∀ r, r ∈ rules_table (db self) →
        r_account_uid r = account_uid self → r_enabled r = true →
        r_case_sensitive r = false ∧ r_match_type r ≠ "regex") →
  py_lower text = py_lower text' →
  match_auto_reply rt self (PStr text) = match_auto_reply rt self (PStr text').
Proof.
  intros Hrules Hsame. unfold match_auto_reply, match_auto_reply_body.
  change ((text =? "") || (py_strip text =? "")) with (blank text).
  change ((text' =? "") || (py_strip text' =? "")) with (blank text').
  rewrite <- (blank_py_lower text), <- (blank_py_lower text'), Hsame.
  destruct (blank (py_lower text')); [done|].
  destruct (get_auto_reply_rules (db self) (account_uid self) true)
    as [|r0 rules] eqn:Hquery; [done|].
  rewrite <- Hquery.
  rewrite (match_rules_case_insensitive rt _ text text'); [done| |done].
  apply Forall_forall. intros r Hr.
  unfold sort_by_priority in Hr. apply elem_of_stable_sort in Hr.
  unfold get_auto_reply_rules in Hr.
  destruct (db_ok (db self)); [|by apply elem_of_nil in Hr].
  apply elem_of_stable_sort, elem_of_filter_bool in Hr as [Hin Hsel].
  unfold rule_selected in Hsel. apply andb_prop in Hsel as [Hacc Hen].
  apply Hrules; [done|by apply String.eqb_eq|done].
Qed.

(** "HI there" and "hi THERE" against the sample rule (contains "hi",
    case-insensitive): both are answered "hello". *)
Lemma case_of_the_text_does_not_matter_witness :
  let self := sample_manager hi_rules in
  match_auto_reply sample_runtime self (PStr "HI there")
  = match_auto_reply sample_runtime self (PStr "hi THERE")
  ∧ match_auto_reply sample_runtime self (PStr "HI there")
    = inr (Some (result_of_rule (sample_rule 1 "hi" "hello" "contains" 0 (100 # 1)))).
Proof.
  intros self. split; [|vm_compute; reflexivity].
  apply (case_of_the_text_does_not_matter sample_runtime self "HI there" "hi THERE").
  - intros r Hr _ _. apply list_elem_of_singleton in Hr as ->. by split.
  - reflexivity.
Defined.
